(** * CodeChecker [checkers] subcommand: a shallow embedding

    The development follows
    [analyzer/codechecker_analyzer/cmd/checkers.py].  Python [str] values
    are modelled by [string]; a character stands for the code point with
    the same number (0..255).  Values that come from other packages
    (the label store, the analyzer backends, [twodim.to_str], [os.path],
    [subprocess]) are fields of the records [CheckerLabels] and
    [Context]; everything defined in [checkers.py] is a definition
    here, under the name it has there. *)

From Stdlib Require Import String Ascii List Bool ZArith Lia Sorted.
From Stdlib Require OrderedTypeEx.
Import ListNotations.

Local Open Scope string_scope.
Local Open Scope list_scope.

(** ** Python string operations used by the module *)

Module Py.

(** [c.isspace()] for a code point below 256: TAB..CR, FS..US, SPACE,
    NEL (0x85) and NBSP (0xA0). *)
Definition isspace (c : ascii) : bool :=
  let n := nat_of_ascii c in
  (((9 <=? n) && (n <=? 13)) || ((28 <=? n) && (n <=? 32))
   || (n =? 133) || (n =? 160))%nat.

(** Code points below 256 that [str.lower] changes: A..Z and the
    Latin-1 capitals 0xC0..0xDE without the multiplication sign. *)
Definition isupper (c : ascii) : bool :=
  let n := nat_of_ascii c in
  (((65 <=? n) && (n <=? 90))
   || ((192 <=? n) && (n <=? 222) && negb (n =? 215)))%nat.

Definition lower_char (c : ascii) : ascii :=
  if isupper c then ascii_of_nat (nat_of_ascii c + 32) else c.

(** [s.lower()] *)
Fixpoint lower (s : string) : string :=
  match s with
  | EmptyString => EmptyString
  | String c s' => String (lower_char c) (lower s')
  end.

(** [s.replace(old, new)] for one-character [old] and [new]. *)
Fixpoint replace_char (old new : ascii) (s : string) : string :=
  match s with
  | EmptyString => EmptyString
  | String c s' =>
      String (if Ascii.eqb c old then new else c) (replace_char old new s')
  end.

(** [s.split()]: the maximal runs of non-whitespace characters, in
    order.  [tok] is the run being read. *)
Fixpoint split_from (tok s : string) : list string :=
  match s with
  | EmptyString => if String.eqb tok "" then [] else [tok]
  | String c s' =>
      if isspace c
      then (if String.eqb tok "" then split_from "" s'
            else tok :: split_from "" s')
      else split_from (tok ++ String c "")%string s'
  end.

Definition split (s : string) : list string := split_from "" s.

(** [s.startswith(p)] *)
Definition startswith (p s : string) : bool := String.prefix p s.

(** [s[n:]] *)
Fixpoint slice_from (n : nat) (s : string) : string :=
  match n, s with
  | O, _ => s
  | S n', EmptyString => EmptyString
  | S n', String _ s' => slice_from n' s'
  end.

(** [sep.join(l)] *)
Definition join (sep : string) (l : list string) : string :=
  String.concat sep l.

(** [x in l] for a list of strings. *)
Definition contains (x : string) (l : list string) : bool :=
  existsb (String.eqb x) l.

(** [k in d] for a dict kept as an association list. *)
Definition has_key {V : Type} (k : string) (d : list (string * V)) : bool :=
  existsb (fun kv => String.eqb k (fst kv)) d.

(** [d[k] = v]: overwrite in place, or append a new key. *)
Fixpoint dict_set {V : Type} (k : string) (v : V) (d : list (string * V))
  : list (string * V) :=
  match d with
  | [] => [(k, v)]
  | (k', v') :: d' =>
      if String.eqb k k' then (k', v) :: d' else (k', v') :: dict_set k v d'
  end.

(** [d[k].append(v)] on a [defaultdict(list)]. *)
Fixpoint dict_append (k v : string) (d : list (string * list string))
  : list (string * list string) :=
  match d with
  | [] => [(k, [v])]
  | (k', vs) :: d' =>
      if String.eqb k k' then (k', vs ++ [v]) :: d'
      else (k', vs) :: dict_append k v d'
  end.

(** Insertion of [x] into a strictly increasing list, keeping it so. *)
Fixpoint insert_sorted (x : string) (l : list string) : list string :=
  match l with
  | [] => [x]
  | y :: l' =>
      match String.compare x y with
      | Lt => x :: l
      | Eq => l
      | Gt => y :: insert_sorted x l'
      end
  end.

(** [sorted(set(l))] *)
Definition sorted_set (l : list string) : list string :=
  fold_right insert_sorted [] l.

(** [posixpath.join(a, b)] *)
Definition path_join (a b : string) : string :=
  if startswith "/" b then b
  else if String.eqb a "" then b
  else if String.eqb (slice_from (String.length a - 1) a) "/"
       then (a ++ b)%string
       else (a ++ "/" ++ b)%string.

End Py.

(** ** Data model *)

(** Modelled from the spec: the enumeration [CheckerState] of
    [codechecker_analyzer.analyzers.config_handler] is imported by the
    module but defined elsewhere; the specification gives the state of a
    checker as one of enabled / disabled.  The module only ever tests
    [state == CheckerState.enabled]. *)
Module CheckerState.
Inductive t : Set := disabled | enabled.

Definition eqb (a b : t) : bool :=
  match a, b with
  | disabled, disabled | enabled, enabled => true
  | _, _ => false
  end.
End CheckerState.

(** The attributes of the parsed command line that [main] reads.  An
    option declared with [default=argparse.SUPPRESS] is a [bool] (is the
    attribute in [args]?) or an [option]; [guideline] has [default=None]
    and [nargs='*']. *)
Record Args : Type := {
  analyzers : list string;
  show_warnings : bool;
  details : bool;
  profile : option string;
  guideline : option (list string);
  checker_config : bool;
  only_enabled : bool;
  only_disabled : bool;
  output_format : string
}.

(** [context.checker_labels] *)
Record CheckerLabels : Type := {
  labels_of_checker : string -> list (string * string);
  get_description : string -> list (string * string);
  occurring_values : string -> list string;
  severity : string -> string
}.

(** One cell of an output row: text, the json boolean of the state
    column, the guideline dict of the json output, or a list of rules. *)
Inductive Cell : Type :=
| Str (s : string)
| Bool (b : bool)
| Dict (d : list (string * list string))
| Strs (l : list string).

Definition Row : Type := list Cell.

(** What [subprocess.check_output] can do. *)
Inductive ProcResult : Type :=
| Completed (stdout : string)
| CalledProcessError (returncode : Z)
| OSError.

(** Everything [main] and its helpers obtain from outside the module. *)
Record Context : Type := {
  checker_labels : CheckerLabels;
  (** [analyzer_types.check_supported_analyzers(args.analyzers, context)] *)
  check_supported_analyzers :
    list string -> list string * list (string * string);
  (** [analyzer_class.get_checker_config(config_handler, env)] *)
  get_checker_config : string -> list (string * string);
  (** [analyzer_class.get_analyzer_checkers(config_handler, env)] *)
  get_analyzer_checkers : string -> list (string * string);
  (** [config_handler.initialize_checkers(context, checkers,
      profile_checkers)] followed by [config_handler.checks().items()] *)
  checks :
    string -> list (string * string) -> list (string * bool) ->
    list (string * (CheckerState.t * string));
  (** [twodim.to_str(format, header, rows)] *)
  to_str : string -> list string -> list Row -> string;
  (** [context.analyzer_binaries.get(ClangSA.ANALYZER_NAME)] *)
  clang_bin : option string;
  realpath : string -> string;
  dirname : string -> string;
  path_exists : string -> bool;
  (** [subprocess.check_output(argv, ...)] *)
  check_output : list string -> ProcResult
}.

(** ** Observable behaviour: output, log records, exit *)

Inductive Event : Type :=
| Print (text : string)
| LogWarning (msg : string)
| LogError (msg : string)
| PrintUnsupportedAnalyzers (errored : list (string * string)).

(** A computation that writes events and either returns a value or
    leaves through [sys.exit]. *)
Inductive Run (A : Type) : Type :=
| Exit (out : list Event) (code : Z)
| Ret (out : list Event) (a : A).

Arguments Exit {A} out code.
Arguments Ret {A} out a.

Definition ret {A : Type} (a : A) : Run A := Ret [] a.

Definition bind {A B : Type} (m : Run A) (f : A -> Run B) : Run B :=
  match m with
  | Exit out code => Exit out code
  | Ret out a =>
      match f a with
      | Exit out' code => Exit (out ++ out') code
      | Ret out' b => Ret (out ++ out') b
      end
  end.

Declare Scope run_scope.
Delimit Scope run_scope with run.
Notation "x <- m ;; k" := (bind m (fun x => k))
  (at level 61, m at next level, right associativity) : run_scope.
Notation "m ;; k" := (bind m (fun _ => k))
  (at level 61, right associativity) : run_scope.

Definition emit (e : Event) : Run unit := Ret [e] tt.
Definition print (text : string) : Run unit := emit (Print text).
Definition LOG_warning (msg : string) : Run unit := emit (LogWarning msg).
Definition LOG_error (msg : string) : Run unit := emit (LogError msg).
Definition sys_exit {A : Type} (code : Z) : Run A := Exit [] code.

(** When a [for] loop only prints. *)
Fixpoint for_each {A : Type} (l : list A) (body : A -> Run unit) : Run unit :=
  match l with
  | [] => ret tt
  | x :: l' => bind (body x) (fun _ => for_each l' body)
  end.

Definition output {A : Type} (m : Run A) : list Event :=
  match m with Exit out _ => out | Ret out _ => out end.

(** The exit status of the process: the argument of [sys.exit], or 0
    when [main] returns. *)
Definition exit_code {A : Type} (m : Run A) : Z :=
  match m with Exit _ code => code | Ret _ _ => 0%Z end.

(** The texts written to standard output, in order. *)
Fixpoint printed (out : list Event) : list string :=
  match out with
  | [] => []
  | Print text :: out' => text :: printed out'
  | _ :: out' => printed out'
  end.

(** ** The functions of [checkers.py] *)

Local Open Scope run_scope.

(** [get_diagtool_bin]: the path of a [diagtool] next to the resolved
    clang binary, or [None].  (Its [LOG.debug] record is not output.) *)
Definition get_diagtool_bin (context : Context) : option string :=
  match clang_bin context with
  | None => None
  | Some clang =>
      if String.eqb clang "" then None
      else
        let clang := realpath context clang in
        let diagtool_bin := Py.path_join (dirname context clang) "diagtool" in
        if path_exists context diagtool_bin then Some diagtool_bin else None
  end.

(** [get_warnings]: the warning flags listed by [diagtool tree]. *)
Definition get_warnings (context : Context) : list string :=
  match get_diagtool_bin context with
  | None => []
  | Some diagtool_bin =>
      if String.eqb diagtool_bin "" then []
      else
        match check_output context [diagtool_bin; "tree"] with
        | Completed result =>
            map (Py.slice_from 2)
                (filter (Py.startswith "-W") (Py.split result))
        | CalledProcessError _ => []
        | OSError => []
        end
  end.

(** [uglify]: the header of the csv and json formats. *)
Definition uglify (text : string) : string :=
  Py.replace_char " " "_" (Py.lower text).

(** The loop of [match_guideline] over the labels of the checker. *)
Fixpoint match_guideline_loop
  (choices : list (string * string)) (selected_guidelines : list string)
  (labels : list (string * string)) : bool :=
  match labels with
  | [] => false
  | (label, value) :: labels' =>
      if (String.eqb label "guideline" || Py.has_key label choices)
         && Py.contains value selected_guidelines
      then true
      else match_guideline_loop choices selected_guidelines labels'
  end.

Definition match_guideline
  (context : Context) (checker_name : string)
  (selected_guidelines : list string) : bool :=
  let labels := labels_of_checker (checker_labels context) checker_name in
  let choices := get_description (checker_labels context) "guideline" in
  match_guideline_loop choices selected_guidelines labels.

Definition format_guideline (guideline : list (string * list string)) : string :=
  Py.join " "
    (map (fun gr =>
            ("Related " ++ fst gr ++ " rules: " ++ Py.join ", " (snd gr))%string)
         guideline).

Definition guideline_rules_for_checker
  (context : Context) (checker : string) : list (string * list string) :=
  let labels := labels_of_checker (checker_labels context) checker in
  let guidelines := get_description (checker_labels context) "guideline" in
  fold_left
    (fun result label =>
       if Py.has_key (fst label) guidelines
       then Py.dict_append (fst label) (snd label) result
       else result)
    labels [].

(** [if args.output_format in ['csv', 'json']: header = list(map(uglify,
    header))] *)
Definition format_header (args : Args) (header : list string) : list string :=
  if Py.contains (output_format args) ["csv"; "json"]
  then map uglify header else header.

(** Modelled from the spec: [analyzer_types.check_available_analyzers]
    is called by [main] but defined elsewhere; by the specification the
    exit code is non-zero when the requested analyzers cannot be
    resolved at all.  What it logs is not modelled. *)
Definition check_available_analyzers
  (working_analyzers : list string) (errored : list (string * string))
  : Run unit :=
  match working_analyzers with
  | [] => sys_exit 1
  | _ :: _ => ret tt
  end.

(** [analyzer_types.print_unsupported_analyzers(errored)], kept as one
    event. *)
Definition print_unsupported_analyzers
  (errored : list (string * string)) : Run unit :=
  emit (PrintUnsupportedAnalyzers errored).

(** [if rows: print(twodim.to_str(args.output_format, header, rows))] *)
Definition print_rows
  (context : Context) (args : Args) (header : list string) (rows : list Row)
  : Run unit :=
  match rows with
  | [] => ret tt
  | _ :: _ => print (to_str context (output_format args) header rows)
  end.

(** *** [--profile list] *)

Definition list_profiles (context : Context) (args : Args) : Run unit :=
  let cl := checker_labels context in
  LOG_warning ("--profile flag is deprecated and will be removed in the "
               ++ "next release.")%string ;;
  let header :=
    if details args then ["Profile name"; "Description"] else ["Profile name"] in
  let rows : list Row :=
    if details args
    then map (fun kv => [Str (fst kv); Str (snd kv)]) (get_description cl "profile")
    else map (fun kv => [Str (fst kv)]) (get_description cl "profile") in
  let header := format_header args header in
  print (to_str context (output_format args) header rows).

(** *** [--checker-config] *)

Definition config_row (args : Args) (analyzer : string) (c : string * string)
  : Row :=
  if details args
  then [Str (Py.join ":" [analyzer; fst c]); Str (snd c)]
  else [Str (Py.join ":" [analyzer; fst c])].

(** The loop over the working analyzers: the rows collected, and the
    analyzers that gave no options. *)
Fixpoint checker_config_loop
  (context : Context) (args : Args) (working_analyzers : list string)
  : list Row * list string :=
  match working_analyzers with
  | [] => ([], [])
  | analyzer :: rest =>
      let configs := get_checker_config context analyzer in
      let '(rows, analyzer_failures) := checker_config_loop context args rest in
      match configs with
      | [] => (rows, analyzer :: analyzer_failures)
      | _ :: _ => (map (config_row args analyzer) configs ++ rows,
                   analyzer_failures)
      end
  end.

Definition list_checker_config
  (context : Context) (args : Args) (working_analyzers : list string)
  : Run unit :=
  let header := if details args then ["Option"; "Description"] else ["Option"] in
  let header := format_header args header in
  let '(rows, analyzer_failures) :=
    checker_config_loop context args working_analyzers in
  print_rows context args header rows ;;
  match analyzer_failures with
  | [] => ret tt
  | _ :: _ =>
      LOG_error ("Failed to get checker configuration options for '"
                 ++ Py.join ", " analyzer_failures
                 ++ "' analyzer(s)! Please try to upgrade your analyzer "
                 ++ "version to use this feature.")%string ;;
      sys_exit 1
  end.

(** *** [--guideline] without a name *)

Definition list_guidelines (context : Context) (args : Args) : Run unit :=
  let cl := checker_labels context in
  let result : list (string * list string) :=
    fold_left
      (fun result g =>
         Py.dict_set (fst g) (Py.sorted_set (occurring_values cl (fst g))) result)
      (get_description cl "guideline") [] in
  let header := format_header args ["Guideline"; "Rules"] in
  let rows : list Row :=
    if String.eqb (output_format args) "json"
    then map (fun gr => [Str (fst gr); Strs (snd gr)]) result
    else map (fun gr => [Str (fst gr); Str (Py.join ", " (snd gr))]) result in
  if String.eqb (output_format args) "rows"
  then
    for_each result (fun gr =>
      print ("Guideline: " ++ fst gr)%string ;;
      print ("Rules: " ++ Py.join ", " (snd gr))%string)
  else print (to_str context (output_format args) header rows).

(** *** The checker listing *)

Definition is_enabled (state : CheckerState.t) : bool :=
  CheckerState.eqb state CheckerState.enabled.

(** [if args.guideline is not None: if not match_guideline(name,
    args.guideline): continue] -- [true] when the row goes on. *)
Definition guideline_filter (context : Context) (args : Args) (name : string)
  : bool :=
  match guideline args with
  | None => true
  | Some selected => match_guideline context name selected
  end.

(** The three [continue] tests on the resolved state -- [true] when the
    checker goes on. *)
Definition profile_filter (args : Args) (state : CheckerState.t) : bool :=
  negb (negb (is_enabled state)
        && match profile args with Some _ => true | None => false end).

Definition state_filter (args : Args) (state : CheckerState.t) : bool :=
  if is_enabled state && only_disabled args then false
  else if negb (is_enabled state) && only_enabled args then false
  else true.

(** The guideline column: the dict for json, its text otherwise. *)
Definition guideline_cell (context : Context) (args : Args) (name : string)
  : Cell :=
  let guideline := guideline_rules_for_checker context name in
  if negb (String.eqb (output_format args) "json")
  then Str (format_guideline guideline)
  else Dict guideline.

(** The body of the loop over [config_handler.checks().items()]: the row
    appended for one checker, [None] where the body reaches [continue]. *)
Definition checker_row
  (context : Context) (args : Args) (analyzer : string)
  (item : string * (CheckerState.t * string)) : option Row :=
  let '(checker, (state, description)) := item in
  if negb (profile_filter args state) then None
  else if negb (state_filter args state) then None
  else
    let state_cell :=
      if String.eqb (output_format args) "json"
      then Bool (is_enabled state)
      else Str (if is_enabled state then "+" else "-") in
    if negb (guideline_filter context args checker) then None
    else if details args
    then Some [state_cell; Str checker; Str analyzer;
               Str (severity (checker_labels context) checker);
               guideline_cell context args checker; Str description]
    else Some [Str checker].

(** The body of the loop over [get_warnings(...)]. *)
Definition warning_row (context : Context) (args : Args) (warning : string)
  : option Row :=
  let warning := ("clang-diagnostic-" ++ warning)%string in
  if negb (guideline_filter context args warning) then None
  else
    let guideline := guideline_cell context args warning in
    if details args
    then Some [Str ""; Str warning; Str "-"; Str "MEDIUM"; guideline; Str "-"]
    else Some [Str warning].

(** Rows appended by a loop whose body may [continue]. *)
Fixpoint collect {A : Type} (body : A -> option Row) (l : list A) : list Row :=
  match l with
  | [] => []
  | x :: l' =>
      match body x with
      | Some row => row :: collect body l'
      | None => collect body l'
      end
  end.

(** The profile directive of one iteration; an unknown profile ends the
    program. *)
Definition profile_checkers (context : Context) (args : Args)
  : Run (list (string * bool)) :=
  match profile args with
  | None => ret []
  | Some name =>
      let available_profiles :=
        get_description (checker_labels context) "profile" in
      if negb (Py.has_key name available_profiles)
      then
        LOG_error ("Checker profile '" ++ name ++ "' does not exist!")%string ;;
        LOG_error "To list available profiles, use '--profile list'." ;;
        sys_exit 1
      else ret [(("profile:" ++ name)%string, true)]
  end.

(** The loop over the working analyzers. *)
Fixpoint analyzer_loop
  (context : Context) (args : Args) (working_analyzers : list string)
  : Run (list Row) :=
  match working_analyzers with
  | [] => ret []
  | analyzer :: rest =>
      let checkers := get_analyzer_checkers context analyzer in
      directives <- profile_checkers context args ;;
      let rows :=
        collect (checker_row context args analyzer)
                (checks context analyzer checkers directives) in
      more <- analyzer_loop context args rest ;;
      ret (rows ++ more)
  end.

(** The rows of the warning flags, when [-w] was given. *)
Definition warning_rows (context : Context) (args : Args) : list Row :=
  if show_warnings args
  then collect (warning_row context args) (get_warnings context)
  else [].

(** The row sequence of the listing: the checkers of every working
    analyzer, then the warning flags. *)
Definition listing_rows
  (context : Context) (args : Args) (working_analyzers : list string)
  : Run (list Row) :=
  rows <- analyzer_loop context args working_analyzers ;;
  ret (rows ++ warning_rows context args).

Definition listing_header (args : Args) : list string :=
  let header :=
    if details args
    then ["Enabled"; "Name"; "Analyzer"; "Severity"; "Guideline"; "Description"]
    else ["Name"] in
  format_header args header.

Definition list_checkers
  (context : Context) (args : Args)
  (working_analyzers : list string) (errored : list (string * string))
  : Run unit :=
  let header := listing_header args in
  rows <- listing_rows context args working_analyzers ;;
  print_rows context args header rows ;;
  print_unsupported_analyzers errored.

(** *** [main] *)

(** ['profile' in args and args.profile == 'list'] *)
Definition profile_is_list (args : Args) : bool :=
  match profile args with
  | Some name => String.eqb name "list"
  | None => false
  end.

(** [args.guideline is not None and len(args.guideline) == 0] *)
Definition guideline_is_empty (args : Args) : bool :=
  match guideline args with
  | Some selected => (length selected =? 0)%nat
  | None => false
  end.

Definition main (context : Context) (args : Args) : Run unit :=
  let '(working_analyzers, errored) :=
    check_supported_analyzers context (analyzers args) in
  check_available_analyzers working_analyzers errored ;;
  if profile_is_list args then list_profiles context args
  else if checker_config args
  then list_checker_config context args working_analyzers
  else if guideline_is_empty args then list_guidelines context args
  else list_checkers context args working_analyzers errored.

(** The checker rows of the working analyzers under given profile
    directives: what the loop over the analyzers collects when no
    iteration leaves the program. *)
Definition checker_rows
  (context : Context) (args : Args) (directives : list (string * bool))
  (working_analyzers : list string) : list Row :=
  flat_map
    (fun analyzer =>
       collect (checker_row context args analyzer)
               (checks context analyzer
                       (get_analyzer_checkers context analyzer) directives))
    working_analyzers.

(** An analyzer whose backend reports no configuration option. *)
Definition no_options (context : Context) (analyzer : string) : bool :=
  match get_checker_config context analyzer with
  | [] => true
  | _ :: _ => false
  end.

(** ** Auxiliary notions for the statements *)

(** One character of [uglify]. *)
Definition uglify_char (c : ascii) : ascii :=
  if Ascii.eqb (Py.lower_char c) " " then "_"%char else Py.lower_char c.

(** No whitespace inside, and not empty. *)
Definition is_token (tok : string) : Prop :=
  tok <> "" /\ Forall (fun c => Py.isspace c = false) (list_ascii_of_string tok).

(** The same query with [--only-enabled], resp. [--only-disabled]. *)
Definition with_only_enabled (args : Args) : Args := {|
  analyzers := analyzers args; show_warnings := show_warnings args;
  details := details args; profile := profile args;
  guideline := guideline args; checker_config := checker_config args;
  only_enabled := true; only_disabled := false;
  output_format := output_format args
|}.



(** A character that [uglify] leaves alone: no space, no capital. *)
Definition plain_char (c : ascii) : Prop :=
  c <> " "%char /\ Py.isupper c = false.

(** [d.get(k)] for a dict kept as an association list. *)
Fixpoint dict_get {V : Type} (k : string) (d : list (string * V)) : option V :=
  match d with
  | [] => None
  | (k', v) :: d' => if String.eqb k k' then Some v else dict_get k d'
  end.

(** The values, in order, of the labels of a checker under one key. *)
Definition label_values (context : Context) (checker key : string)
  : list string :=
  map snd
      (filter (fun label => String.eqb (fst label) key)
              (labels_of_checker (checker_labels context) checker)).

(** The three tests of the loop body of the listing, together. *)
Definition listed
  (context : Context) (args : Args) (item : string * (CheckerState.t * string))
  : bool :=
  profile_filter args (fst (snd item))
  && state_filter args (fst (snd item))
  && guideline_filter context args (fst item).

(** The name column of a row of the listing. *)
Definition row_name (args : Args) (row : Row) : option Cell :=
  nth_error row (if details args then 1 else 0).

(** The [result] dict built by the guideline listing. *)
Definition guidelines_and_rules (context : Context)
  : list (string * list string) :=
  fold_left
    (fun result g =>
       Py.dict_set (fst g)
         (Py.sorted_set (occurring_values (checker_labels context) (fst g)))
         result)
    (get_description (checker_labels context) "guideline") [].

(** The order of [sorted] on strings: by code point, then by length. *)
Definition string_lt (a b : string) : Prop := String.compare a b = Lt.

(** A string without whitespace. *)
Definition no_whitespace (s : string) : Prop :=
  Forall (fun c => Py.isspace c = false) (list_ascii_of_string s).

(** The checkers that the loop over the analyzers lists. *)
Definition listed_checkers
  (context : Context) (args : Args) (directives : list (string * bool))
  (working : list string) : list string :=
  flat_map
    (fun analyzer =>
       map fst
           (filter (listed context args)
                   (checks context analyzer
                           (get_analyzer_checkers context analyzer) directives)))
    working.

(** The warning names that the loop over the warnings lists. *)
Definition listed_warnings (context : Context) (args : Args) : list string :=
  if show_warnings args
  then filter (guideline_filter context args)
              (map (fun W => ("clang-diagnostic-" ++ W)%string)
                   (get_warnings context))
  else [].

(** The directives handed to [initialize_checkers] for a known profile. *)
Definition profile_directives (args : Args) : list (string * bool) :=
  match profile args with
  | None => []
  | Some name => [(("profile:" ++ name)%string, true)]
  end.

(** The events of a run that are reports on unsupported analyzers. *)
Definition reports_unsupported (e : Event) : bool :=
  match e with
  | PrintUnsupportedAnalyzers _ => true
  | _ => false
  end.

(** ** A concrete installation, for the examples *)

Module Example.

(** Checkers A, B, C of the scenario of the specification:
    A: profile=default, severity=HIGH;  B: profile=strict;
    C: profile=default, guideline=sei-cert, sei-cert=arr30-c. *)
Definition labels : CheckerLabels := {|
  labels_of_checker := fun checker =>
    if String.eqb checker "A" then [("profile", "default"); ("severity", "HIGH")]
    else if String.eqb checker "B" then [("profile", "strict")]
    else if String.eqb checker "C"
    then [("profile", "default"); ("guideline", "sei-cert");
          ("sei-cert", "arr30-c")]
    else [];
  get_description := fun key =>
    if String.eqb key "profile"
    then [("default", "Default checkers"); ("strict", "Strict checkers");
          ("unused", "A profile without checkers")]
    else if String.eqb key "guideline" then [("sei-cert", "SEI CERT")]
    else [];
  occurring_values := fun key =>
    if String.eqb key "sei-cert" then ["arr30-c"]
    else if String.eqb key "guideline" then ["sei-cert"]
    else [];
  severity := fun checker =>
    if String.eqb checker "A" then "HIGH" else "UNSPECIFIED"
|}.

(** A resolver in the sense of the specification: enabled by a
    [profile:default] label, or by a directive naming one of the
    profiles of the checker. *)
Definition resolve
  (checkers : list (string * string)) (directives : list (string * bool))
  : list (string * (CheckerState.t * string)) :=
  map (fun cd =>
         let profiles :=
           map snd (filter (fun kv => String.eqb (fst kv) "profile")
                           (labels_of_checker labels (fst cd))) in
         let on_by_default := Py.contains "default" profiles in
         let on_by_directive :=
           existsb (fun d =>
                      snd d && existsb (fun p => String.eqb (fst d)
                                                   ("profile:" ++ p)%string)
                                       profiles)
                   directives in
         (fst cd,
          (if on_by_default || on_by_directive
           then CheckerState.enabled else CheckerState.disabled, snd cd)))
      checkers.

Definition show_cell (c : Cell) : string :=
  match c with
  | Str s => s
  | Bool true => "true"
  | Bool false => "false"
  | Dict d => format_guideline d
  | Strs l => Py.join ", " l
  end.

(** A stand-in for [twodim.to_str]. *)
Definition render (format : string) (header : list string) (rows : list Row)
  : string :=
  (format ++ "[" ++ Py.join "," header ++ "]"
   ++ Py.join ";" (map (fun row => Py.join "," (map show_cell row)) rows))%string.

(** [clangsa] offers A, B, C and reports configuration options;
    [clang-tidy] offers the unlabelled checker D and reports no option;
    [cppcheck] cannot be resolved. *)
Definition installation (has_diagtool : bool) (diagtool_tree : ProcResult)
  : Context := {|
  checker_labels := labels;
  check_supported_analyzers := fun requested =>
    (filter (fun a => negb (String.eqb a "cppcheck")) requested,
     map (fun a => (a, "not found"))
         (filter (fun a => String.eqb a "cppcheck") requested));
  get_checker_config := fun analyzer =>
    if String.eqb analyzer "clangsa" then [("core:Opt", "An option")] else [];
  get_analyzer_checkers := fun analyzer =>
    if String.eqb analyzer "clangsa"
    then [("A", "checker A"); ("B", "checker B"); ("C", "checker C")]
    else if String.eqb analyzer "clang-tidy" then [("D", "checker D")]
    else [];
  checks := fun _ checkers directives => resolve checkers directives;
  to_str := render;
  clang_bin := Some "/usr/bin/clang";
  realpath := fun p => p;
  dirname := fun _ => "/usr/bin";
  path_exists := fun p => has_diagtool && String.eqb p "/usr/bin/diagtool";
  check_output := fun argv =>
    match argv with
    | ["/usr/bin/diagtool"; "tree"] => diagtool_tree
    | _ => OSError
    end
|}.

(** The installation with a working [diagtool]. *)
Definition context : Context :=
  installation true
    (Completed ("GREEN -Weverything
  -Wall
    -Wunused  YELLOW = off")).

Definition args : Args := {|
  analyzers := ["clangsa"];
  show_warnings := false;
  details := false;
  profile := None;
  guideline := None;
  checker_config := false;
  only_enabled := false;
  only_disabled := false;
  output_format := "rows"
|}.

(** [-w] *)
Definition args_warnings : Args := {|
  analyzers := ["clangsa"]; show_warnings := true; details := false;
  profile := None; guideline := None; checker_config := false;
  only_enabled := false; only_disabled := false; output_format := "rows"
|}.

(** [-w --details -o json] *)
Definition args_warnings_json : Args := {|
  analyzers := ["clangsa"]; show_warnings := true; details := true;
  profile := None; guideline := None; checker_config := false;
  only_enabled := false; only_disabled := false; output_format := "json"
|}.



(** [--profile nonexistent] *)
Definition args_unknown_profile : Args := {|
  analyzers := ["clangsa"]; show_warnings := false; details := false;
  profile := Some "nonexistent"; guideline := None; checker_config := false;
  only_enabled := false; only_disabled := false; output_format := "rows"
|}.

(** [--analyzers clangsa clang-tidy --checker-config] *)
Definition args_config_two_analyzers : Args := {|
  analyzers := ["clangsa"; "clang-tidy"]; show_warnings := false;
  details := false;
  profile := None; guideline := None; checker_config := true;
  only_enabled := false; only_disabled := false; output_format := "rows"
|}.

(** [--guideline] without a name *)
Definition args_guideline_empty : Args := {|
  analyzers := ["clangsa"]; show_warnings := false; details := false;
  profile := None; guideline := Some []; checker_config := false;
  only_enabled := false; only_disabled := false; output_format := "rows"
|}.

(** [--analyzers clang-tidy --only-enabled -o json]: nothing to list *)
Definition args_nothing_enabled_json : Args := {|
  analyzers := ["clang-tidy"]; show_warnings := false; details := false;
  profile := None; guideline := None; checker_config := false;
  only_enabled := true; only_disabled := false; output_format := "json"
|}.


(** [--guideline sei-cert] *)
Definition args_guideline_sei_cert : Args := {|
  analyzers := ["clangsa"]; show_warnings := false; details := false;
  profile := None; guideline := Some ["sei-cert"]; checker_config := false;
  only_enabled := false; only_disabled := false; output_format := "rows"
|}.

(** [-w --details] *)
Definition args_warnings_details : Args := {|
  analyzers := ["clangsa"]; show_warnings := true; details := true;
  profile := None; guideline := None; checker_config := false;
  only_enabled := false; only_disabled := false; output_format := "rows"
|}.

(** [--profile strict] *)
Definition args_profile_strict : Args := {|
  analyzers := ["clangsa"]; show_warnings := false; details := false;
  profile := Some "strict"; guideline := None; checker_config := false;
  only_enabled := false; only_disabled := false; output_format := "rows"
|}.

(** [--profile strict --only-disabled] *)
Definition args_profile_strict_only_disabled : Args := {|
  analyzers := ["clangsa"]; show_warnings := false; details := false;
  profile := Some "strict"; guideline := None; checker_config := false;
  only_enabled := false; only_disabled := true; output_format := "rows"
|}.

(** [--profile list --checker-config --guideline] *)
Definition args_profile_list : Args := {|
  analyzers := ["clangsa"]; show_warnings := false; details := false;
  profile := Some "list"; guideline := Some []; checker_config := true;
  only_enabled := false; only_disabled := false; output_format := "rows"
|}.

(** [--analyzers clangsa cppcheck] *)
Definition args_with_cppcheck : Args := {|
  analyzers := ["clangsa"; "cppcheck"]; show_warnings := false;
  details := false;
  profile := None; guideline := None; checker_config := false;
  only_enabled := false; only_disabled := false; output_format := "rows"
|}.



End Example.

(** * Properties *)

Local Close Scope run_scope.

(** ** Strings *)

Section StringFacts.

Lemma eqb_string_true (a b : string) : String.eqb a b = true <-> a = b.
Proof. apply String.eqb_eq. Qed.

Lemma contains_In (x : string) (l : list string) :
  Py.contains x l = true <-> In x l.
Proof.
  unfold Py.contains. rewrite existsb_exists. split.
  - intros [y [Hy Heq]]. apply String.eqb_eq in Heq. now subst.
  - intros H. exists x. split; [assumption | apply String.eqb_refl].
Qed.

Lemma has_key_In {V : Type} (k : string) (d : list (string * V)) :
  Py.has_key k d = true <-> In k (map fst d).
Proof.
  unfold Py.has_key. rewrite existsb_exists, in_map_iff. split.
  - intros [kv [Hin Heq]]. apply String.eqb_eq in Heq. now exists kv.
  - intros [kv [Heq Hin]]. exists kv. split; [assumption |].
    rewrite Heq. apply String.eqb_refl.
Qed.


Lemma uglify_chars (s : string) :
  uglify s = string_of_list_ascii (map uglify_char (list_ascii_of_string s)).
Proof.
  unfold uglify. induction s as [| c s IH]; simpl; [reflexivity |].
  now rewrite IH.
Qed.

Lemma uglify_char_idempotent (c : ascii) :
  uglify_char (uglify_char c) = uglify_char c.
Proof.
  destruct c as [[] [] [] [] [] [] [] []]; vm_compute; reflexivity.
Qed.

Lemma append_empty_r (s : string) : (s ++ "")%string = s.
Proof. induction s; simpl; congruence. Qed.

Lemma append_assoc (a b c : string) :
  ((a ++ b) ++ c)%string = (a ++ (b ++ c))%string.
Proof. induction a; simpl; congruence. Qed.

Lemma append_eq_empty (a b : string) :
  (a ++ b)%string = "" -> a = "" /\ b = "".
Proof. destruct a; simpl; [auto | discriminate]. Qed.

(** The result of [os.path.join(d, 'diagtool')] is never empty. *)
Lemma path_join_diagtool_nonempty (d : string) :
  Py.path_join d "diagtool" <> "".
Proof.
  unfold Py.path_join. simpl Py.startswith.
  destruct (String.eqb d ""); [discriminate |].
  destruct (String.eqb _ "/"); intros H; apply append_eq_empty in H;
    destruct H as [_ H]; discriminate.
Qed.

End StringFacts.

(** ** Tokens of [str.split] *)

Section SplitFacts.


Lemma list_ascii_app (a b : string) :
  list_ascii_of_string (a ++ b) =
  list_ascii_of_string a ++ list_ascii_of_string b.
Proof. induction a; simpl; congruence. Qed.

Lemma split_from_tokens (s tok : string) :
  Forall (fun c => Py.isspace c = false) (list_ascii_of_string tok) ->
  Forall is_token (Py.split_from tok s).
Proof.
  revert tok. induction s as [| c s IH]; intros tok Htok; simpl.
  - destruct (String.eqb tok "") eqn:E; constructor; [| constructor].
    split; [| assumption]. now apply String.eqb_neq.
  - destruct (Py.isspace c) eqn:Hc.
    + destruct (String.eqb tok "") eqn:E.
      * apply IH. constructor.
      * constructor; [| apply IH; constructor].
        split; [| assumption]. now apply String.eqb_neq.
    + apply IH. rewrite list_ascii_app. apply Forall_app. split; [assumption |].
      simpl. constructor; [assumption | constructor].
Qed.

(** Every element of [s.split()] is a non-empty run without whitespace. *)
Lemma split_tokens (s : string) : Forall is_token (Py.split s).
Proof. apply split_from_tokens. constructor. Qed.

(** Dropping the whitespace of [s] gives the tokens, glued. *)
Lemma split_from_concat (s tok : string) :
  String.concat "" (Py.split_from tok s) =
  (tok ++ string_of_list_ascii
            (filter (fun c => negb (Py.isspace c)) (list_ascii_of_string s)))%string.
Proof.
  revert tok. induction s as [| c s IH]; intros tok; simpl.
  - rewrite append_empty_r. destruct (String.eqb tok "") eqn:E.
    + apply String.eqb_eq in E. now subst.
    + reflexivity.
  - destruct (Py.isspace c) eqn:Hc; simpl.
    + destruct (String.eqb tok "") eqn:E.
      * apply String.eqb_eq in E. subst. apply IH.
      * specialize (IH ""). simpl in IH. rewrite <- IH.
        destruct (Py.split_from "" s); simpl; [now rewrite append_empty_r |].
        reflexivity.
    + rewrite IH, append_assoc. reflexivity.
Qed.

Lemma slice_from_prefix (w : string) :
  Py.slice_from 2 ("-W" ++ w)%string = w.
Proof. reflexivity. Qed.

Lemma startswith_split (p s : string) :
  Py.startswith p s = true -> s = (p ++ Py.slice_from (String.length p) s)%string.
Proof.
  unfold Py.startswith. revert s. induction p as [| a p IH]; intros s H.
  - reflexivity.
  - destruct s as [| b s]; simpl in H; [discriminate |].
    destruct (Ascii.ascii_dec a b) as [-> | Hne]; [| discriminate].
    simpl. f_equal. auto.
Qed.

End SplitFacts.


(** Sample runs of [main] on this installation. *)
Example scenario_only_enabled :
  main Example.context
       {| analyzers := ["clangsa"]; show_warnings := false; details := false;
          profile := None; guideline := None; checker_config := false;
          only_enabled := true; only_disabled := false;
          output_format := "rows" |}
  = Ret [Print "rows[Name]A;C"; PrintUnsupportedAnalyzers []] tt.
Proof. reflexivity. Qed.

Example scenario_profile_strict :
  main Example.context
       {| analyzers := ["clangsa"]; show_warnings := false; details := false;
          profile := Some "strict"; guideline := None; checker_config := false;
          only_enabled := false; only_disabled := false;
          output_format := "rows" |}
  = Ret [Print "rows[Name]A;B;C"; PrintUnsupportedAnalyzers []] tt.
Proof. reflexivity. Qed.

Example scenario_guideline :
  main Example.context
       {| analyzers := ["clangsa"]; show_warnings := false; details := false;
          profile := None; guideline := Some ["sei-cert"];
          checker_config := false;
          only_enabled := false; only_disabled := false;
          output_format := "rows" |}
  = Ret [Print "rows[Name]C"; PrintUnsupportedAnalyzers []] tt.
Proof. reflexivity. Qed.

Example scenario_warnings :
  get_warnings Example.context = ["everything"; "all"; "unused"].
Proof. reflexivity. Qed.

Example scenario_details_json :
  main Example.context
       {| analyzers := ["clangsa"; "cppcheck"]; show_warnings := true;
          details := true;
          profile := None; guideline := Some ["arr30-c"];
          checker_config := false;
          only_enabled := false; only_disabled := false;
          output_format := "json" |}
  = Ret [Print ("json[enabled,name,analyzer,severity,guideline,description]"
                ++ "true,C,clangsa,UNSPECIFIED,"
                ++ "Related sei-cert rules: arr30-c,checker C");
         PrintUnsupportedAnalyzers [("cppcheck", "not found")]] tt.
Proof. reflexivity. Qed.

(** ** Header normalization *)

(** C9: [uglify] (lower-casing, then every space replaced by an
    underscore) is idempotent: for every header string [s],
    [uglify (uglify s) = uglify s]. *)
Theorem uglify_idempotent (s : string) : uglify (uglify s) = uglify s.
Proof.
  rewrite (uglify_chars (uglify s)), (uglify_chars s).
  rewrite list_ascii_of_string_of_list_ascii, map_map.
  f_equal. apply map_ext. intros c. apply uglify_char_idempotent.
Qed.

Example uglify_profile_name : uglify "Profile name" = "profile_name".
Proof. reflexivity. Qed.

(** ** The guideline matcher *)

Lemma match_guideline_loop_iff
  (choices : list (string * string)) (selected : list string)
  (labels : list (string * string)) :
  match_guideline_loop choices selected labels = true <->
  exists label value,
    In (label, value) labels
    /\ (label = "guideline" \/ In label (map fst choices))
    /\ In value selected.
Proof.
  induction labels as [| [label value] labels IH]; simpl.
  - split; [discriminate | intros (l & v & [] & _)].
  - destruct ((String.eqb label "guideline" || Py.has_key label choices)
              && Py.contains value selected) eqn:Htest.
    + split; [intros _ | reflexivity].
      apply andb_true_iff in Htest. destruct Htest as [Hkey Hval].
      exists label, value. split; [now left |]. split.
      * apply orb_true_iff in Hkey. destruct Hkey as [Hkey | Hkey].
        -- left. now apply String.eqb_eq.
        -- right. now apply has_key_In.
      * now apply contains_In.
    + rewrite IH. split.
      * intros (l & v & Hin & Hkey & Hval). exists l, v. auto.
      * intros (l & v & [Heq | Hin] & Hkey & Hval); [| exists l, v; auto].
        injection Heq as -> ->. exfalso.
        apply andb_false_iff in Htest. destruct Htest as [Htest | Htest].
        -- apply orb_false_iff in Htest. destruct Htest as [Hg Hc].
           destruct Hkey as [Hkey | Hkey].
           ++ apply String.eqb_neq in Hg. contradiction.
           ++ apply has_key_In in Hkey. congruence.
        -- apply contains_In in Hval. congruence.
Qed.

(** C2: for every checker name and every requested guideline/rule set,
    [match_guideline] returns true if and only if some label of the
    checker has a key that is exactly ['guideline'] or is a key of the
    ['guideline'] description mapping, and the value of that label is an
    element of the requested set. *)
Theorem match_guideline_iff
  (context : Context) (checker_name : string) (selected_guidelines : list string) :
  match_guideline context checker_name selected_guidelines = true <->
  exists label value,
    In (label, value)
       (labels_of_checker (checker_labels context) checker_name)
    /\ (label = "guideline"
        \/ In label
              (map fst (get_description (checker_labels context) "guideline")))
    /\ In value selected_guidelines.
Proof. unfold match_guideline. apply match_guideline_loop_iff. Qed.

Example match_guideline_by_rule :
  match_guideline Example.context "C" ["arr30-c"] = true
  /\ match_guideline Example.context "C" ["profile"; "default"] = false.
Proof. split; reflexivity. Qed.

(** ** The warning-flag collector *)

Lemma warnings_of_tokens (tokens : list string) :
  Forall2 (fun token flag => token = ("-W" ++ flag)%string)
          (filter (Py.startswith "-W") tokens)
          (map (Py.slice_from 2) (filter (Py.startswith "-W") tokens)).
Proof.
  induction tokens as [| tok tokens IH]; simpl; [constructor |].
  destruct (Py.startswith "-W" tok) eqn:Hp; [| assumption].
  simpl. constructor; [| assumption].
  now apply startswith_split in Hp.
Qed.

Lemma get_diagtool_bin_nonempty (context : Context) (bin : string) :
  get_diagtool_bin context = Some bin -> String.eqb bin "" = false.
Proof.
  unfold get_diagtool_bin. destruct (clang_bin context) as [clang |]; [| discriminate].
  destruct (String.eqb clang ""); [discriminate |].
  destruct (path_exists context _); [| discriminate].
  intros H. injection H as <-. apply String.eqb_neq.
  apply path_join_diagtool_nonempty.
Qed.

(** C8: [get_warnings] returns the empty list, and does not raise, when
    the helper binary is absent, when the subprocess exits with a
    non-zero status, and when the subprocess cannot be started; when the
    subprocess succeeds it returns exactly the whitespace-separated
    tokens of its standard output that start with ['-W'], in order, each
    without that two-character prefix. *)
Theorem get_warnings_spec (context : Context) :
  (get_diagtool_bin context = None -> get_warnings context = [])
  /\ (forall bin,
        get_diagtool_bin context = Some bin ->
        (forall returncode,
            check_output context [bin; "tree"] = CalledProcessError returncode ->
            get_warnings context = [])
        /\ (check_output context [bin; "tree"] = OSError ->
            get_warnings context = [])
        /\ (forall stdout,
               check_output context [bin; "tree"] = Completed stdout ->
               Forall2 (fun token flag => token = ("-W" ++ flag)%string)
                       (filter (String.prefix "-W") (Py.split stdout))
                       (get_warnings context))).
Proof.
  unfold get_warnings. split.
  - intros ->. reflexivity.
  - intros bin Hbin. rewrite Hbin, (get_diagtool_bin_nonempty _ _ Hbin).
    repeat split.
    + intros rc ->. reflexivity.
    + intros ->. reflexivity.
    + intros stdout ->. apply warnings_of_tokens.
Qed.

Lemma get_warnings_spec_witness :
  get_warnings (Example.installation false OSError) = []
  /\ get_warnings (Example.installation true (CalledProcessError 1)) = []
  /\ get_warnings (Example.installation true OSError) = []
  /\ Forall2 (fun token flag => token = ("-W" ++ flag)%string)
             ["-Weverything"; "-Wall"; "-Wunused"]
             (get_warnings Example.context).
Proof.
  split; [| split; [| split]].
  - exact (proj1 (get_warnings_spec (Example.installation false OSError))
             eq_refl).
  - exact (proj1 (proj2 (get_warnings_spec
                           (Example.installation true (CalledProcessError 1)))
                    "/usr/bin/diagtool" eq_refl) 1%Z eq_refl).
  - exact (proj1 (proj2 (proj2 (get_warnings_spec
                                  (Example.installation true OSError))
                           "/usr/bin/diagtool" eq_refl)) eq_refl).
  - exact (proj2 (proj2 (proj2 (get_warnings_spec Example.context)
                           "/usr/bin/diagtool" eq_refl))
                 _ eq_refl).
Defined.

(** ** Rows of the listing *)

Lemma collect_In {A : Type} (body : A -> option Row) (l : list A) (row : Row) :
  In row (collect body l) <-> exists x, In x l /\ body x = Some row.
Proof.
  induction l as [| x l IH]; simpl.
  - split; [intros [] | intros (x & [] & _)].
  - destruct (body x) as [r |] eqn:Hx; simpl; rewrite IH; split.
    + intros [<- | (y & Hy & Hr)]; [exists x; auto | exists y; auto].
    + intros (y & [<- | Hy] & Hr); [left; congruence | right; exists y; auto].
    + intros (y & Hy & Hr). exists y; auto.
    + intros (y & [<- | Hy] & Hr); [congruence | exists y; auto].
Qed.

Lemma guideline_filter_false (context : Context) (args : Args) (name : string) :
  guideline_filter context args name = false <->
  exists selected,
    guideline args = Some selected
    /\ match_guideline context name selected = false.
Proof.
  unfold guideline_filter. destruct (guideline args) as [selected |]; split.
  - intros H. now exists selected.
  - intros (sel & Heq & H). now injection Heq as <-.
  - discriminate.
  - intros (sel & Heq & _). discriminate.
Qed.

(** C10: a warning row emitted in details mode holds the empty string
    in its Enabled column, in every output format, json included, where
    the row of a real checker holds a boolean (json) or ['+'] / ['-'];
    its Description column holds ['-']. *)
Theorem warning_row_details (context : Context) (args : Args) (W : string) :
  details args = true ->
  (forall row,
      warning_row context args W = Some row ->
      length row = 6
      /\ nth_error row 0 = Some (Str "")
      /\ nth_error row 5 = Some (Str "-"))
  /\ (forall analyzer checker state description row,
         checker_row context args analyzer (checker, (state, description))
         = Some row ->
         length row = 6
         /\ nth_error row 0 =
            Some (if String.eqb (output_format args) "json"
                  then Bool (is_enabled state)
                  else Str (if is_enabled state then "+" else "-"))
         /\ nth_error row 5 = Some (Str description)).
Proof.
  intros Hd. split.
  - intros row. unfold warning_row. rewrite Hd.
    destruct (guideline_filter context args _); simpl; [| discriminate].
    intros H. injection H as <-. auto.
  - intros analyzer checker state description row. unfold checker_row.
    rewrite Hd.
    destruct (profile_filter args state); simpl; [| discriminate].
    destruct (state_filter args state); simpl; [| discriminate].
    destruct (guideline_filter context args checker); simpl; [| discriminate].
    intros H. injection H as <-. auto.
Qed.

Lemma warning_row_details_witness :
  nth_error
    [Str ""; Str "clang-diagnostic-all"; Str "-"; Str "MEDIUM"; Dict []; Str "-"]
    0 = Some (Str "")
  /\ nth_error
       [Bool true; Str "A"; Str "clangsa"; Str "HIGH"; Dict []; Str "checker A"]
       0 = Some (Bool true).
Proof.
  split.
  - refine (proj1 (proj2 (proj1
      (warning_row_details Example.context Example.args_warnings_json "all"
         eq_refl) _ eq_refl))).
  - refine (proj1 (proj2 (proj2
      (warning_row_details Example.context Example.args_warnings_json "all"
         eq_refl) "clangsa" "A" CheckerState.enabled "checker A" _ eq_refl))).
Defined.

(** ** Runs of [main] *)

Lemma bind_ret_nil {A B : Type} (a : A) (f : A -> Run B) :
  bind (Ret [] a) f = f a.
Proof. unfold bind. destruct (f a); reflexivity. Qed.

Lemma profile_is_list_false (args : Args) :
  profile_is_list args = false <-> profile args <> Some "list".
Proof.
  unfold profile_is_list. destruct (profile args) as [name |].
  - rewrite String.eqb_neq. split; congruence.
  - split; [discriminate | reflexivity].
Qed.

Lemma guideline_is_empty_false (args : Args) :
  guideline_is_empty args = false <-> guideline args <> Some [].
Proof.
  unfold guideline_is_empty. destruct (guideline args) as [[| g gs] |]; simpl;
    split; congruence.
Qed.

(** The two ways one iteration can treat the requested profile. *)
Lemma profile_checkers_cases (context : Context) (args : Args) :
  match profile args with
  | None => profile_checkers context args = Ret [] []
  | Some name =>
      if Py.has_key name (get_description (checker_labels context) "profile")
      then profile_checkers context args
           = Ret [] [(("profile:" ++ name)%string, true)]
      else profile_checkers context args
           = Exit [LogError ("Checker profile '" ++ name
                             ++ "' does not exist!")%string;
                   LogError "To list available profiles, use '--profile list'."]
                  1%Z
  end.
Proof.
  unfold profile_checkers. destruct (profile args) as [name |]; [| reflexivity].
  destruct (Py.has_key name _); reflexivity.
Qed.

Lemma analyzer_loop_returns
  (context : Context) (args : Args) (directives : list (string * bool))
  (working : list string) :
  profile_checkers context args = Ret [] directives ->
  analyzer_loop context args working
  = Ret [] (checker_rows context args directives working).
Proof.
  intros Hp. induction working as [| analyzer rest IH]; simpl; [reflexivity |].
  rewrite Hp, bind_ret_nil, IH. reflexivity.
Qed.

Lemma analyzer_loop_exits
  (context : Context) (args : Args) (out : list Event) (code : Z)
  (working : list string) :
  profile_checkers context args = Exit out code ->
  working <> [] ->
  analyzer_loop context args working = Exit out code.
Proof.
  intros Hp Hw. destruct working as [| analyzer rest]; [contradiction |].
  simpl. rewrite Hp. reflexivity.
Qed.

(** A loop that returns has written nothing. *)
Lemma analyzer_loop_silent
  (context : Context) (args : Args) (working : list string)
  (out : list Event) (rows : list Row) :
  analyzer_loop context args working = Ret out rows -> out = [].
Proof.
  pose proof (profile_checkers_cases context args) as Hc.
  destruct (profile args) as [name |].
  - destruct (Py.has_key name _).
    + rewrite (analyzer_loop_returns _ _ _ _ Hc). congruence.
    + destruct working as [| analyzer rest]; simpl; [unfold ret; congruence |].
      rewrite Hc. discriminate.
  - rewrite (analyzer_loop_returns _ _ _ _ Hc). congruence.
Qed.

Lemma listing_rows_silent
  (context : Context) (args : Args) (working : list string)
  (out : list Event) (rows : list Row) :
  listing_rows context args working = Ret out rows -> out = [].
Proof.
  unfold listing_rows.
  destruct (analyzer_loop context args working) as [o c | o r] eqn:Hl; simpl;
    [discriminate |].
  apply analyzer_loop_silent in Hl. subst o. simpl. congruence.
Qed.

(** [main] past the test of the available analyzers. *)
Lemma main_with_analyzers
  (context : Context) (args : Args)
  (working : list string) (errored : list (string * string)) :
  check_supported_analyzers context (analyzers args) = (working, errored) ->
  working <> [] ->
  main context args =
  if profile_is_list args then list_profiles context args
  else if checker_config args then list_checker_config context args working
  else if guideline_is_empty args then list_guidelines context args
  else list_checkers context args working errored.
Proof.
  intros Hs Hw. unfold main. rewrite Hs.
  destruct working as [| analyzer rest]; [contradiction |].
  simpl check_available_analyzers. apply bind_ret_nil.
Qed.



Lemma collect_none {A : Type} (body : A -> option Row) (l : list A) :
  (forall x, In x l -> body x = None) -> collect body l = [].
Proof.
  induction l as [| x l IH]; intros H; simpl; [reflexivity |].
  rewrite (H x (or_introl eq_refl)). apply IH. intros y Hy. apply H. now right.
Qed.

Lemma flat_map_nil {A B : Type} (f : A -> list B) (l : list A) :
  (forall x, In x l -> f x = []) -> flat_map f l = [].
Proof.
  induction l as [| x l IH]; intros H; simpl; [reflexivity |].
  rewrite (H x (or_introl eq_refl)). apply IH. intros y Hy. apply H. now right.
Qed.

Lemma is_enabled_true (state : CheckerState.t) :
  is_enabled state = true <-> state = CheckerState.enabled.
Proof. destruct state; simpl; split; congruence. Qed.

(** ** Validation of the requested profile *)


Example unknown_profile_in_listing :
  main Example.context Example.args_unknown_profile
  = Exit [LogError "Checker profile 'nonexistent' does not exist!";
          LogError "To list available profiles, use '--profile list'."] 1%Z.
Proof. reflexivity. Qed.




(** ** [--checker-config] *)

Lemma checker_config_loop_failures
  (context : Context) (args : Args) (working : list string) :
  snd (checker_config_loop context args working)
  = filter (no_options context) working.
Proof.
  induction working as [| analyzer rest IH]; simpl; [reflexivity |].
  unfold no_options at 1.
  destruct (checker_config_loop context args rest) as [rows failures].
  simpl in IH. destruct (get_checker_config context analyzer); simpl; congruence.
Qed.

Lemma checker_config_loop_rows
  (context : Context) (args : Args) (working : list string) :
  fst (checker_config_loop context args working)
  = flat_map (fun analyzer =>
                map (config_row args analyzer)
                    (get_checker_config context analyzer))
             working.
Proof.
  induction working as [| analyzer rest IH]; simpl; [reflexivity |].
  destruct (checker_config_loop context args rest) as [rows failures].
  simpl in IH. destruct (get_checker_config context analyzer); simpl; congruence.
Qed.

(** C3, as stated, fails: with [clangsa] reporting its options and
    [clang-tidy] reporting none, one backend is able to report, the
    options are printed, and yet the run ends with status 1. *)
Lemma checker_config_fails_on_partial_failure :
  check_supported_analyzers Example.context
    (analyzers Example.args_config_two_analyzers)
  = (["clangsa"; "clang-tidy"], [])
  /\ get_checker_config Example.context "clangsa" <> []
  /\ main Example.context Example.args_config_two_analyzers
     = Exit [Print "rows[Option]clangsa:core:Opt";
             LogError ("Failed to get checker configuration options for "
                       ++ "'clang-tidy' analyzer(s)! Please try to upgrade "
                       ++ "your analyzer version to use this feature.")] 1%Z
  /\ exit_code (main Example.context Example.args_config_two_analyzers) <> 0%Z.
Proof. repeat split; discriminate. Qed.

(** C3, amended: in checker-config mode, with at least one working
    analyzer, the exit code is non-zero (it is 1) exactly when at least
    one working backend reports no configuration option; the options of
    the backends that do report are printed first, if there are any,
    and the failed analyzers are then named in one error record, after
    which the run ends with status 1. *)
Theorem checker_config_exit_code
  (context : Context) (args : Args)
  (working : list string) (errored : list (string * string)) :
  check_supported_analyzers context (analyzers args) = (working, errored) ->
  working <> [] ->
  profile args <> Some "list" ->
  checker_config args = true ->
  let rows :=
    flat_map (fun analyzer =>
                map (config_row args analyzer)
                    (get_checker_config context analyzer))
             working in
  let failures := filter (no_options context) working in
  let header :=
    format_header args
      (if details args then ["Option"; "Description"] else ["Option"]) in
  (exit_code (main context args) <> 0%Z <->
   exists analyzer,
     In analyzer working /\ get_checker_config context analyzer = [])
  /\ (exit_code (main context args) = 0%Z
      \/ exit_code (main context args) = 1%Z)
  /\ output (main context args)
     = output (print_rows context args header rows)
       ++ match failures with
          | [] => []
          | _ :: _ =>
              [LogError ("Failed to get checker configuration options for '"
                         ++ Py.join ", " failures
                         ++ "' analyzer(s)! Please try to upgrade your analyzer "
                         ++ "version to use this feature.")%string]
          end.
Proof.
  intros Hs Hw Hl Hc rows failures header.
  apply profile_is_list_false in Hl.
  rewrite (main_with_analyzers _ _ _ _ Hs Hw), Hl, Hc.
  unfold list_checker_config.
  pose proof (checker_config_loop_rows context args working) as Hrows.
  pose proof (checker_config_loop_failures context args working) as Hfail.
  destruct (checker_config_loop context args working) as [rows' failures'].
  simpl in Hrows, Hfail. subst rows' failures'.
  fold rows failures header.
  assert (Hex : failures <> [] <->
                exists analyzer,
                  In analyzer working /\ get_checker_config context analyzer = []).
  { split.
    - intros Hne. destruct failures as [| a l] eqn:Hf; [contradiction |].
      assert (Ha : In a failures) by (rewrite Hf; now left).
      apply filter_In in Ha. destruct Ha as [Ha Hno]. exists a. split; [exact Ha |].
      unfold no_options in Hno.
      destruct (get_checker_config context a); [reflexivity | discriminate].
    - intros (a & Ha & Hno) Hnil.
      assert (Hin : In a failures).
      { apply filter_In. split; [exact Ha |]. unfold no_options. now rewrite Hno. }
      rewrite Hnil in Hin. destruct Hin. }
  rewrite <- Hex.
  destruct rows as [| row rows1]; destruct failures as [| a l]; simpl;
    repeat split; try congruence; auto; try discriminate;
    intros H; exfalso; apply H; reflexivity.
Qed.

Lemma checker_config_exit_code_witness :
  exit_code (main Example.context Example.args_config_two_analyzers) <> 0%Z <->
  exists analyzer,
    In analyzer ["clangsa"; "clang-tidy"]
    /\ get_checker_config Example.context analyzer = [].
Proof.
  refine (proj1 (checker_config_exit_code Example.context
                   Example.args_config_two_analyzers
                   ["clangsa"; "clang-tidy"] [] eq_refl _ _ eq_refl));
    discriminate.
Defined.

(** ** The guideline selector *)

Lemma match_guideline_nil (context : Context) (name : string) :
  match_guideline context name [] = false.
Proof.
  unfold match_guideline.
  induction (labels_of_checker (checker_labels context) name)
    as [| [label value] labels IH]; simpl; [reflexivity |].
  rewrite andb_false_r. exact IH.
Qed.


(** ** Empty results *)

(** C5, as stated, fails: a json query whose row sequence is empty
    prints no document at all. *)
Lemma empty_listing_emits_no_document :
  listing_rows Example.context Example.args_nothing_enabled_json ["clang-tidy"]
  = Ret [] []
  /\ output_format Example.args_nothing_enabled_json = "json"
  /\ main Example.context Example.args_nothing_enabled_json
     = Ret [PrintUnsupportedAnalyzers []] tt
  /\ printed (output (main Example.context Example.args_nothing_enabled_json))
     = [].
Proof. repeat split. Qed.

(** C5, amended: for every query that reaches the checker listing with
    at least one working analyzer and whose filtered row sequence is
    empty, the program prints no document at all -- the renderer is not
    called, whatever the output format -- and the empty result is not an
    error: the run ends with status 0 after the report on the
    unsupported analyzers. *)
Theorem empty_listing_prints_nothing
  (context : Context) (args : Args)
  (working : list string) (errored : list (string * string))
  (out : list Event) :
  check_supported_analyzers context (analyzers args) = (working, errored) ->
  working <> [] ->
  profile args <> Some "list" ->
  checker_config args = false ->
  guideline args <> Some [] ->
  listing_rows context args working = Ret out [] ->
  main context args = Ret [PrintUnsupportedAnalyzers errored] tt
  /\ printed (output (main context args)) = []
  /\ exit_code (main context args) = 0%Z.
Proof.
  intros Hs Hw Hl Hc Hg Hrows.
  apply profile_is_list_false in Hl. apply guideline_is_empty_false in Hg.
  assert (Hmain : main context args = Ret [PrintUnsupportedAnalyzers errored] tt).
  { rewrite (main_with_analyzers _ _ _ _ Hs Hw), Hl, Hc, Hg.
    unfold list_checkers. rewrite Hrows.
    rewrite (listing_rows_silent _ _ _ _ _ Hrows). reflexivity. }
  rewrite Hmain. repeat split.
Qed.

Lemma empty_listing_prints_nothing_witness :
  main Example.context Example.args_nothing_enabled_json
  = Ret [PrintUnsupportedAnalyzers []] tt.
Proof.
  refine (proj1 (empty_listing_prints_nothing Example.context
                   Example.args_nothing_enabled_json ["clang-tidy"] [] []
                   eq_refl _ _ eq_refl _ eq_refl)); discriminate.
Defined.

(** A non-empty row sequence is rendered, in one document. *)
Lemma nonempty_listing_is_printed
  (context : Context) (args : Args)
  (working : list string) (errored : list (string * string))
  (row : Row) (rows : list Row) :
  check_supported_analyzers context (analyzers args) = (working, errored) ->
  working <> [] ->
  profile args <> Some "list" ->
  checker_config args = false ->
  guideline args <> Some [] ->
  listing_rows context args working = Ret [] (row :: rows) ->
  main context args
  = Ret [Print (to_str context (output_format args) (listing_header args)
                  (row :: rows));
         PrintUnsupportedAnalyzers errored] tt.
Proof.
  intros Hs Hw Hl Hc Hg Hrows.
  apply profile_is_list_false in Hl. apply guideline_is_empty_false in Hg.
  rewrite (main_with_analyzers _ _ _ _ Hs Hw), Hl, Hc, Hg.
  unfold list_checkers. rewrite Hrows. reflexivity.
Qed.

(** ** [--only-enabled] and [--only-disabled] *)





(** * Further properties of the module *)

(** ** [uglify] *)

Lemma uglify_char_plain (c : ascii) : plain_char (uglify_char c).
Proof.
  unfold plain_char.
  destruct c as [[] [] [] [] [] [] [] []]; vm_compute; split;
    solve [discriminate | reflexivity].
Qed.

Lemma uglify_char_fixes (c : ascii) : uglify_char c = c <-> plain_char c.
Proof.
  unfold plain_char.
  destruct c as [[] [] [] [] [] [] [] []]; vm_compute; split;
    solve [ intros _; split; [discriminate | reflexivity]
          | intros _; reflexivity
          | discriminate
          | intros [H1 H2]; solve [discriminate | exfalso; apply H1; reflexivity] ].
Qed.

Lemma uglify_cons (c : ascii) (s : string) :
  uglify (String c s) = String (uglify_char c) (uglify s).
Proof. reflexivity. Qed.

(** X1: for a header over code points below 256 (the alphabet of this
    model, which holds every header of [main]), [uglify] keeps the
    length of the header; its result holds no space and no capital
    letter; and it changes nothing exactly in the strings that hold
    neither. *)
Theorem uglify_shape (s : string) :
  String.length (uglify s) = String.length s
  /\ Forall plain_char (list_ascii_of_string (uglify s))
  /\ (uglify s = s <-> Forall plain_char (list_ascii_of_string s)).
Proof.
  induction s as [| c s (IHlen & IHplain & IHfix)].
  - repeat split; constructor.
  - rewrite uglify_cons. simpl. split; [congruence |]. split.
    + constructor; [apply uglify_char_plain | exact IHplain].
    + split.
      * intros H. injection H as Hc Hs. constructor.
        -- now apply uglify_char_fixes.
        -- now apply IHfix.
      * intros H. inversion H as [| c' l Hc Hs]; subst. f_equal.
        -- now apply uglify_char_fixes.
        -- now apply IHfix.
Qed.

(** ** [match_guideline] and [guideline_rules_for_checker] *)

Lemma match_guideline_true
  (context : Context) (checker : string) (selected : list string) :
  match_guideline context checker selected = true <->
  exists label value,
    In (label, value) (labels_of_checker (checker_labels context) checker)
    /\ (label = "guideline"
        \/ In label
              (map fst (get_description (checker_labels context) "guideline")))
    /\ In value selected.
Proof. apply match_guideline_loop_iff. Qed.

(** X2: [match_guideline] treats the selection as a set: nothing matches
    the empty selection, a checker matches a concatenation exactly when
    it matches one of the parts, and a checker that matches a selection
    matches every selection that includes it. *)
Theorem match_guideline_selection
  (context : Context) (checker : string) (s1 s2 : list string) :
  match_guideline context checker [] = false
  /\ match_guideline context checker (s1 ++ s2)
     = match_guideline context checker s1 || match_guideline context checker s2
  /\ (incl s1 s2 ->
      match_guideline context checker s1 = true ->
      match_guideline context checker s2 = true).
Proof.
  split; [apply match_guideline_nil |]. split.
  - apply eq_iff_eq_true.
    rewrite orb_true_iff, !match_guideline_true. split.
    + intros (l & v & Hin & Hk & Hv). apply in_app_iff in Hv.
      destruct Hv as [Hv | Hv]; [left | right]; exists l, v; auto.
    + intros [(l & v & Hin & Hk & Hv) | (l & v & Hin & Hk & Hv)];
        exists l, v; repeat split; auto; apply in_app_iff; auto.
  - intros Hincl. rewrite !match_guideline_true.
    intros (l & v & Hin & Hk & Hv). exists l, v. auto.
Qed.

Lemma match_guideline_selection_witness :
  match_guideline Example.context "C" ["arr30-c"; "exp33-c"] = true.
Proof.
  refine (proj2 (proj2 (match_guideline_selection Example.context "C"
                          ["arr30-c"] ["arr30-c"; "exp33-c"])) _ eq_refl).
  intros x [<- | []]. now left.
Defined.

Section DictFacts.

Context {V : Type}.

Lemma dict_get_In (d : list (string * V)) (k : string) (v : V) :
  NoDup (map fst d) -> (In (k, v) d <-> dict_get k d = Some v).
Proof.
  induction d as [| [k' v'] d IH]; simpl; intros Hnd.
  - split; [intros [] | discriminate].
  - inversion Hnd as [| x l Hnotin Hnd']; subst.
    destruct (String.eqb k k') eqn:E.
    + apply String.eqb_eq in E. subst k'. split.
      * intros [H | H]; [congruence |].
        exfalso. apply Hnotin. apply in_map_iff. now exists (k, v).
      * intros H. left. congruence.
    + apply String.eqb_neq in E. rewrite <- (IH Hnd'). split.
      * intros [H | H]; [congruence | exact H].
      * auto.
Qed.

Lemma dict_get_has_key (d : list (string * V)) (k : string) :
  dict_get k d = None <-> Py.has_key k d = false.
Proof.
  induction d as [| [k' v'] d IH]; simpl; [split; reflexivity |].
  destruct (String.eqb k k'); simpl; [split; discriminate | exact IH].
Qed.

Lemma dict_set_keys (k : string) (v : V) (d : list (string * V)) :
  map fst (Py.dict_set k v d)
  = if Py.has_key k d then map fst d else map fst d ++ [k].
Proof.
  induction d as [| [k' v'] d IH]; simpl; [reflexivity |].
  destruct (String.eqb k k'); simpl; [reflexivity |].
  rewrite IH. destruct (Py.has_key k d); reflexivity.
Qed.

Lemma dict_get_dict_set (g k : string) (v : V) (d : list (string * V)) :
  dict_get g (Py.dict_set k v d)
  = if String.eqb g k then Some v else dict_get g d.
Proof.
  induction d as [| [k' v'] d IH]; simpl.
  - reflexivity.
  - destruct (String.eqb k k') eqn:E; simpl.
    + apply String.eqb_eq in E. subst k'.
      destruct (String.eqb g k); reflexivity.
    + rewrite IH. destruct (String.eqb g k') eqn:E'; [| reflexivity].
      apply String.eqb_eq in E'. subst k'.
      rewrite String.eqb_sym, E. reflexivity.
Qed.

Lemma NoDup_snoc (l : list string) (k : string) :
  NoDup l -> ~ In k l -> NoDup (l ++ [k]).
Proof.
  intros Hnd Hk. induction Hnd as [| x l Hx Hnd IH]; simpl.
  - constructor; [intros [] | constructor].
  - constructor.
    + rewrite in_app_iff. intros [H | [H | []]]; [contradiction |].
      subst. apply Hk. now left.
    + apply IH. intros H. apply Hk. now right.
Qed.

Lemma dict_set_NoDup (k : string) (v : V) (d : list (string * V)) :
  NoDup (map fst d) -> NoDup (map fst (Py.dict_set k v d)).
Proof.
  intros Hnd. rewrite dict_set_keys.
  destruct (Py.has_key k d) eqn:Hk; [exact Hnd |].
  apply NoDup_snoc; [exact Hnd |].
  intros H. apply has_key_In in H. congruence.
Qed.

End DictFacts.

Lemma dict_append_keys (k v : string) (d : list (string * list string)) :
  map fst (Py.dict_append k v d)
  = if Py.has_key k d then map fst d else map fst d ++ [k].
Proof.
  induction d as [| [k' vs] d IH]; simpl; [reflexivity |].
  destruct (String.eqb k k'); simpl; [reflexivity |].
  rewrite IH. destruct (Py.has_key k d); reflexivity.
Qed.

Lemma dict_append_NoDup (k v : string) (d : list (string * list string)) :
  NoDup (map fst d) -> NoDup (map fst (Py.dict_append k v d)).
Proof.
  intros Hnd. rewrite dict_append_keys.
  destruct (Py.has_key k d) eqn:Hk; [exact Hnd |].
  apply NoDup_snoc; [exact Hnd |].
  intros H. apply has_key_In in H. congruence.
Qed.

Lemma dict_get_dict_append (g k v : string) (d : list (string * list string)) :
  dict_get g (Py.dict_append k v d)
  = if String.eqb g k
    then Some (match dict_get k d with Some vs => vs ++ [v] | None => [v] end)
    else dict_get g d.
Proof.
  induction d as [| [k' vs] d IH]; simpl.
  - reflexivity.
  - destruct (String.eqb k k') eqn:E; simpl.
    + apply String.eqb_eq in E. subst k'.
      destruct (String.eqb g k); reflexivity.
    + rewrite IH. destruct (String.eqb g k') eqn:E'; [| reflexivity].
      apply String.eqb_eq in E'. subst k'.
      rewrite String.eqb_sym, E. reflexivity.
Qed.

(** The loop of [guideline_rules_for_checker], from any dict. *)
Lemma guideline_rules_fold
  (guidelines : list (string * string)) (labels : list (string * string))
  (acc : list (string * list string)) (g : string) :
  let step := fun (result : list (string * list string))
                  (label : string * string) =>
                if Py.has_key (fst label) guidelines
                then Py.dict_append (fst label) (snd label) result
                else result in
  let added :=
    map snd (filter (fun label => String.eqb (fst label) g
                                  && Py.has_key (fst label) guidelines)
                    labels) in
  (NoDup (map fst acc) -> NoDup (map fst (fold_left step labels acc)))
  /\ dict_get g (fold_left step labels acc)
     = match dict_get g acc, added with
       | None, [] => None
       | None, _ :: _ => Some added
       | Some vs, _ => Some (vs ++ added)
       end.
Proof.
  intros step. revert acc.
  induction labels as [| [k v] labels IH]; intros acc; simpl.
  - split; [auto |]. destruct (dict_get g acc); [now rewrite app_nil_r | reflexivity].
  - destruct (IH (step acc (k, v))) as [IHnd IHget]. split.
    + intros Hnd. apply IHnd. unfold step. simpl.
      destruct (Py.has_key k guidelines); [now apply dict_append_NoDup | exact Hnd].
    + rewrite IHget. unfold step at 1. simpl.
      destruct (Py.has_key k guidelines) eqn:Hk; simpl.
      * rewrite dict_get_dict_append, (String.eqb_sym k g).
        destruct (String.eqb g k) eqn:E; simpl.
        -- apply String.eqb_eq in E. subst k.
           destruct (dict_get g acc) as [vs |]; simpl.
           ++ now rewrite <- app_assoc.
           ++ reflexivity.
        -- reflexivity.
      * rewrite andb_false_r. reflexivity.
Qed.

Lemma filter_key_known
  (guidelines : list (string * string)) (labels : list (string * string))
  (g : string) :
  filter (fun label => String.eqb (fst label) g
                       && Py.has_key (fst label) guidelines) labels
  = if Py.has_key g guidelines
    then filter (fun label => String.eqb (fst label) g) labels
    else [].
Proof.
  induction labels as [| [k v] labels IH]; simpl.
  - now destruct (Py.has_key g guidelines).
  - rewrite IH. destruct (String.eqb k g) eqn:E; simpl.
    + apply String.eqb_eq in E. subst k.
      destruct (Py.has_key g guidelines); reflexivity.
    + reflexivity.
Qed.

(** What the dict of [guideline_rules_for_checker] holds under a key. *)
Lemma guideline_rules_lookup (context : Context) (checker g : string) :
  NoDup (map fst (guideline_rules_for_checker context checker))
  /\ dict_get g (guideline_rules_for_checker context checker)
     = if Py.has_key g (get_description (checker_labels context) "guideline")
       then match label_values context checker g with
            | [] => None
            | rules => Some rules
            end
       else None.
Proof.
  unfold guideline_rules_for_checker, label_values.
  destruct (guideline_rules_fold
              (get_description (checker_labels context) "guideline")
              (labels_of_checker (checker_labels context) checker) [] g)
    as [Hnd Hget].
  split; [apply Hnd; constructor |].
  rewrite Hget, filter_key_known. simpl.
  destruct (Py.has_key g _); simpl; [| reflexivity].
  generalize (map snd
                (filter (fun label : string * string => String.eqb (fst label) g)
                        (labels_of_checker (checker_labels context) checker))).
  intros [| r rs]; reflexivity.
Qed.

(** X3: the dict returned by [guideline_rules_for_checker] has one entry
    per known guideline name (a key of the ['guideline'] descriptions)
    that occurs as a label key of the checker, and no other entry; the
    entry lists the values of those labels, in label order, repeated
    values included, and is never empty. *)
Theorem guideline_rules_for_checker_spec
  (context : Context) (checker g : string) (rules : list string) :
  NoDup (map fst (guideline_rules_for_checker context checker))
  /\ (In (g, rules) (guideline_rules_for_checker context checker) <->
      In g (map fst (get_description (checker_labels context) "guideline"))
      /\ rules = label_values context checker g
      /\ rules <> []).
Proof.
  destruct (guideline_rules_lookup context checker g) as [Hnd Hget].
  split; [exact Hnd |].
  rewrite (dict_get_In _ _ _ Hnd), Hget, <- has_key_In.
  destruct (Py.has_key g _); [| split; [discriminate | intros [H _]; discriminate]].
  destruct (label_values context checker g) as [| r rs]; split.
  - discriminate.
  - intros (_ & -> & H). contradiction.
  - intros H. injection H as <-. repeat split. discriminate.
  - intros (_ & -> & _). reflexivity.
Qed.

Example guideline_rules_of_C :
  guideline_rules_for_checker Example.context "C" = [("sei-cert", ["arr30-c"])].
Proof. reflexivity. Qed.

(** X4: [match_guideline] against the coverage dict: a checker matches
    a selection exactly when one of its ['guideline'] labels has its
    value in the selection, or one of the rules that
    [guideline_rules_for_checker] lists for it is in the selection. *)
Theorem match_guideline_coverage
  (context : Context) (checker : string) (selected : list string) :
  match_guideline context checker selected = true <->
  (exists value,
      In ("guideline", value)
         (labels_of_checker (checker_labels context) checker)
      /\ In value selected)
  \/ (exists g rules rule,
         In (g, rules) (guideline_rules_for_checker context checker)
         /\ In rule rules /\ In rule selected).
Proof.
  rewrite match_guideline_true. split.
  - intros (l & v & Hin & [-> | Hk] & Hv).
    + left. now exists v.
    + right. exists l, (label_values context checker l), v.
      assert (Hv' : In v (label_values context checker l)).
      { unfold label_values. apply in_map_iff. exists (l, v). split; [reflexivity |].
        apply filter_In. split; [exact Hin | apply String.eqb_refl]. }
      repeat split; [| exact Hv' | exact Hv].
      destruct (guideline_rules_lookup context checker l) as [Hnd Hget].
      apply (dict_get_In _ _ _ Hnd). rewrite Hget.
      apply has_key_In in Hk. rewrite Hk.
      destruct (label_values context checker l); [destruct Hv' | reflexivity].
  - intros [(v & Hin & Hv) | (g & rules & r & Hin & Hr & Hv)].
    + exists "guideline", v. auto.
    + destruct (guideline_rules_lookup context checker g) as [Hnd Hget].
      apply (dict_get_In _ _ _ Hnd) in Hin. rewrite Hget in Hin.
      destruct (Py.has_key g _) eqn:Hk; [| discriminate].
      destruct (label_values context checker g) as [| r0 rs] eqn:Hl;
        [discriminate |].
      injection Hin as <-. rewrite <- Hl in Hr. unfold label_values in Hr.
      apply in_map_iff in Hr. destruct Hr as ([k v] & Hsnd & Hf).
      apply filter_In in Hf. destruct Hf as [Hf Hkey]. simpl in *.
      apply String.eqb_eq in Hkey. subst k v.
      exists g, r. repeat split; [exact Hf | | exact Hv].
      right. now apply has_key_In.
Qed.

(** ** The rows of the checker listing *)

Lemma format_header_length (args : Args) (header : list string) :
  length (format_header args header) = length header.
Proof.
  unfold format_header.
  destruct (Py.contains _ _); [apply length_map | reflexivity].
Qed.

Lemma listing_header_length (args : Args) :
  length (listing_header args) = if details args then 6 else 1.
Proof.
  unfold listing_header. rewrite format_header_length.
  destruct (details args); reflexivity.
Qed.

(** The loop body of the listing, by the outcome of its three tests. *)
Lemma checker_row_listed
  (context : Context) (args : Args) (analyzer : string)
  (item : string * (CheckerState.t * string)) :
  (listed context args item = false /\
   checker_row context args analyzer item = None)
  \/ (listed context args item = true /\
      exists row,
        checker_row context args analyzer item = Some row
        /\ length row = length (listing_header args)
        /\ row_name args row = Some (Str (fst item))).
Proof.
  destruct item as [checker [state description]].
  rewrite listing_header_length.
  unfold listed, checker_row, row_name. simpl.
  destruct (profile_filter args state); simpl; [| now left].
  destruct (state_filter args state); simpl; [| now left].
  destruct (guideline_filter context args checker); simpl; [| now left].
  right. split; [reflexivity |].
  destruct (details args); eexists; repeat split.
Qed.

Lemma warning_row_listed (context : Context) (args : Args) (W : string) :
  let name := ("clang-diagnostic-" ++ W)%string in
  (guideline_filter context args name = false /\
   warning_row context args W = None)
  \/ (guideline_filter context args name = true /\
      exists row,
        warning_row context args W = Some row
        /\ length row = length (listing_header args)
        /\ row_name args row = Some (Str name)).
Proof.
  intros name. rewrite listing_header_length.
  unfold warning_row, row_name. fold name.
  destruct (guideline_filter context args name); simpl; [| now left].
  right. split; [reflexivity |].
  destruct (details args); eexists; repeat split.
Qed.

Lemma collect_listed
  {A : Type} (body : A -> option Row) (keep : A -> bool) (name : A -> string)
  (args : Args) (l : list A) :
  (forall x,
      (keep x = false /\ body x = None)
      \/ (keep x = true /\
          exists row, body x = Some row
                      /\ length row = length (listing_header args)
                      /\ row_name args row = Some (Str (name x)))) ->
  Forall (fun row => length row = length (listing_header args)) (collect body l)
  /\ map (row_name args) (collect body l)
     = map (fun x => Some (Str (name x))) (filter keep l).
Proof.
  intros Hbody. induction l as [| x l [IHw IHn]]; simpl.
  - split; [constructor | reflexivity].
  - destruct (Hbody x) as [[Hk Hb] | [Hk (row & Hb & Hw & Hn)]];
      rewrite Hk, Hb.
    + split; assumption.
    + split; [constructor; assumption |]. simpl. now rewrite Hn, IHn.
Qed.

Lemma checker_rows_listed
  (context : Context) (args : Args) (directives : list (string * bool))
  (working : list string) :
  Forall (fun row => length row = length (listing_header args))
         (checker_rows context args directives working)
  /\ map (row_name args) (checker_rows context args directives working)
     = map (fun name => Some (Str name))
           (listed_checkers context args directives working).
Proof.
  unfold checker_rows, listed_checkers.
  induction working as [| analyzer rest [IHw IHn]]; simpl.
  - split; [constructor | reflexivity].
  - destruct (collect_listed (checker_row context args analyzer)
                (listed context args) fst args
                (checks context analyzer
                        (get_analyzer_checkers context analyzer) directives)
                (checker_row_listed context args analyzer)) as [Hw Hn].
    split.
    + apply Forall_app. split; assumption.
    + rewrite !map_app, Hn, IHn, map_map. reflexivity.
Qed.

Lemma filter_map_comm {A B : Type} (f : A -> B) (p : B -> bool) (l : list A) :
  filter p (map f l) = map f (filter (fun x => p (f x)) l).
Proof.
  induction l as [| x l IH]; simpl; [reflexivity |].
  rewrite IH. destruct (p (f x)); reflexivity.
Qed.

Lemma warning_rows_listed (context : Context) (args : Args) :
  Forall (fun row => length row = length (listing_header args))
         (warning_rows context args)
  /\ map (row_name args) (warning_rows context args)
     = map (fun name => Some (Str name)) (listed_warnings context args).
Proof.
  unfold warning_rows, listed_warnings.
  destruct (show_warnings args); [| split; [constructor | reflexivity]].
  destruct (collect_listed (warning_row context args)
              (fun W => guideline_filter context args
                          ("clang-diagnostic-" ++ W)%string)
              (fun W => ("clang-diagnostic-" ++ W)%string) args
              (get_warnings context)
              (warning_row_listed context args)) as [Hw Hn].
  split; [exact Hw |].
  rewrite Hn, filter_map_comm, map_map. reflexivity.
Qed.

(** The row sequence of every listing that is not aborted. *)
Lemma listing_rows_returned
  (context : Context) (args : Args) (working : list string)
  (out : list Event) (rows : list Row) :
  listing_rows context args working = Ret out rows ->
  out = []
  /\ rows = checker_rows context args (profile_directives args) working
            ++ warning_rows context args.
Proof.
  intros H. split; [exact (listing_rows_silent _ _ _ _ _ H) |].
  revert H. unfold listing_rows, profile_directives.
  pose proof (profile_checkers_cases context args) as Hc.
  destruct (profile args) as [name |].
  - destruct (Py.has_key name _).
    + rewrite (analyzer_loop_returns _ _ _ _ Hc). simpl. congruence.
    + destruct working as [| analyzer rest].
      * simpl. congruence.
      * rewrite (analyzer_loop_exits _ _ _ _ _ Hc); [discriminate |]. discriminate.
  - rewrite (analyzer_loop_returns _ _ _ _ Hc). simpl. congruence.
Qed.

(** X5: every row of the checker listing, warning rows included, has as
    many cells as the header: six with [--details], one without, in
    every output format. *)
Theorem listing_rows_rectangular
  (context : Context) (args : Args) (working : list string)
  (out : list Event) (rows : list Row) :
  listing_rows context args working = Ret out rows ->
  length (listing_header args) = (if details args then 6 else 1)
  /\ Forall (fun row => length row = length (listing_header args)) rows.
Proof.
  intros H. split; [apply listing_header_length |].
  apply listing_rows_returned in H. destruct H as [_ ->].
  apply Forall_app. split.
  - apply checker_rows_listed.
  - apply warning_rows_listed.
Qed.

Lemma listing_rows_rectangular_witness :
  Forall (fun row => length row = 6)
         [[Str "+"; Str "A"; Str "clangsa"; Str "HIGH"; Str ""; Str "checker A"];
          [Str "-"; Str "B"; Str "clangsa"; Str "UNSPECIFIED"; Str "";
           Str "checker B"];
          [Str "+"; Str "C"; Str "clangsa"; Str "UNSPECIFIED";
           Str "Related sei-cert rules: arr30-c"; Str "checker C"];
          [Str ""; Str "clang-diagnostic-everything"; Str "-"; Str "MEDIUM";
           Str ""; Str "-"];
          [Str ""; Str "clang-diagnostic-all"; Str "-"; Str "MEDIUM";
           Str ""; Str "-"];
          [Str ""; Str "clang-diagnostic-unused"; Str "-"; Str "MEDIUM";
           Str ""; Str "-"]].
Proof.
  exact (proj2 (listing_rows_rectangular Example.context
                  Example.args_warnings_details ["clangsa"] [] _ eq_refl)).
Defined.

(** X6: the checker listing names, in order, exactly the checkers of
    the working analyzers that pass the profile test, the
    enabled/disabled test and the guideline test, followed by the
    prefixed warning flags that pass the guideline test (when warnings
    are shown); nothing else is listed and nothing is listed twice that
    the configuration handlers and diagtool report once. *)
Theorem listing_rows_names
  (context : Context) (args : Args) (working : list string)
  (out : list Event) (rows : list Row) :
  listing_rows context args working = Ret out rows ->
  map (row_name args) rows
  = map (fun name => Some (Str name))
        (listed_checkers context args (profile_directives args) working
         ++ listed_warnings context args).
Proof.
  intros H. apply listing_rows_returned in H. destruct H as [_ ->].
  rewrite !map_app.
  rewrite (proj2 (checker_rows_listed context args _ working)).
  rewrite (proj2 (warning_rows_listed context args)). reflexivity.
Qed.

Lemma listing_rows_names_witness :
  map (row_name Example.args_warnings_details)
      (checker_rows Example.context Example.args_warnings_details [] ["clangsa"]
       ++ warning_rows Example.context Example.args_warnings_details)
  = map (fun name => Some (Str name))
        ["A"; "B"; "C"; "clang-diagnostic-everything"; "clang-diagnostic-all";
         "clang-diagnostic-unused"].
Proof.
  exact (listing_rows_names Example.context Example.args_warnings_details
           ["clangsa"] [] _ eq_refl).
Defined.

Lemma listing_rows_run
  (context : Context) (args : Args) (working : list string) :
  listing_rows context args working
  = match working, profile_checkers context args with
    | _ :: _, Exit out code => Exit out code
    | _, _ =>
        Ret [] (checker_rows context args (profile_directives args) working
                ++ warning_rows context args)
    end.
Proof.
  unfold listing_rows, profile_directives.
  pose proof (profile_checkers_cases context args) as Hc.
  destruct (profile args) as [name |].
  - destruct (Py.has_key name _).
    + rewrite (analyzer_loop_returns _ _ _ _ Hc), Hc.
      destruct working; reflexivity.
    + rewrite Hc. destruct working as [| analyzer rest]; [reflexivity |].
      rewrite (analyzer_loop_exits _ _ _ _ _ Hc); [reflexivity | discriminate].
  - rewrite (analyzer_loop_returns _ _ _ _ Hc), Hc.
    destruct working; reflexivity.
Qed.

Lemma listed_same_selectors
  (context : Context) (args args' : Args)
  (item : string * (CheckerState.t * string)) :
  profile args' = profile args ->
  guideline args' = guideline args ->
  only_enabled args' = only_enabled args ->
  only_disabled args' = only_disabled args ->
  listed context args' item = listed context args item.
Proof.
  intros Hp Hg He Hd.
  unfold listed, profile_filter, state_filter, guideline_filter.
  now rewrite Hp, Hg, He, Hd.
Qed.

(** X7: [--details] and the output format change how rows are rendered,
    never which rows there are: two queries with the same profile,
    guideline, only-enabled, only-disabled and warnings options list the
    same names in the same order, and one is aborted exactly when the
    other is. *)
Theorem listing_selection_ignores_rendering
  (context : Context) (args args' : Args) (working : list string)
  (out : list Event) (rows : list Row) :
  profile args' = profile args ->
  guideline args' = guideline args ->
  only_enabled args' = only_enabled args ->
  only_disabled args' = only_disabled args ->
  show_warnings args' = show_warnings args ->
  listing_rows context args working = Ret out rows ->
  exists rows',
    listing_rows context args' working = Ret out rows'
    /\ map (row_name args') rows' = map (row_name args) rows.
Proof.
  intros Hp Hg He Hd Hw H.
  destruct (listing_rows_returned _ _ _ _ _ H) as [-> ->].
  assert (Hpc : profile_checkers context args' = profile_checkers context args).
  { unfold profile_checkers. now rewrite Hp. }
  rewrite listing_rows_run in H. rewrite listing_rows_run, Hpc.
  eexists. split.
  - destruct working as [| analyzer rest]; [reflexivity |].
    destruct (profile_checkers context args); [discriminate | reflexivity].
  - rewrite !map_app.
    rewrite (proj2 (checker_rows_listed context args' _ working)),
            (proj2 (checker_rows_listed context args _ working)),
            (proj2 (warning_rows_listed context args')),
            (proj2 (warning_rows_listed context args)).
    assert (Hc : listed_checkers context args' (profile_directives args') working
                 = listed_checkers context args (profile_directives args) working).
    { unfold listed_checkers, profile_directives. rewrite Hp.
      apply flat_map_ext. intros analyzer. f_equal. apply filter_ext.
      intros item. now apply listed_same_selectors. }
    assert (Hl : listed_warnings context args' = listed_warnings context args).
    { unfold listed_warnings, guideline_filter. now rewrite Hw, Hg. }
    now rewrite Hc, Hl.
Qed.

Lemma listing_selection_ignores_rendering_witness :
  exists rows',
    listing_rows Example.context Example.args_warnings_json ["clangsa"]
    = Ret [] rows'
    /\ map (row_name Example.args_warnings_json) rows'
       = map (row_name Example.args_warnings)
             [[Str "A"]; [Str "B"]; [Str "C"];
              [Str "clang-diagnostic-everything"];
              [Str "clang-diagnostic-all"];
              [Str "clang-diagnostic-unused"]].
Proof.
  exact (listing_selection_ignores_rendering Example.context
           Example.args_warnings Example.args_warnings_json ["clangsa"] [] _
           eq_refl eq_refl eq_refl eq_refl eq_refl eq_refl).
Defined.

Lemma filter_all {A : Type} (p : A -> bool) (l : list A) :
  (forall x, p x = true) -> filter p l = l.
Proof.
  intros H. induction l as [| x l IH]; simpl; [reflexivity |].
  rewrite H, IH. reflexivity.
Qed.

(** X8: without [--profile], [--only-enabled], [--only-disabled] and
    [--guideline] nothing is filtered: the listing is never aborted and
    names every checker that the configuration handlers of the working
    analyzers hold, enabled or not, in analyzer order and then catalog
    order, followed by all warning flags when these are shown. *)
Theorem unfiltered_listing_is_complete
  (context : Context) (args : Args) (working : list string) :
  profile args = None ->
  guideline args = None ->
  only_enabled args = false ->
  only_disabled args = false ->
  exists rows,
    listing_rows context args working = Ret [] rows
    /\ map (row_name args) rows
       = map (fun name => Some (Str name))
           (flat_map
              (fun analyzer =>
                 map fst (checks context analyzer
                            (get_analyzer_checkers context analyzer) []))
              working
            ++ if show_warnings args
               then map (fun W => ("clang-diagnostic-" ++ W)%string)
                        (get_warnings context)
               else []).
Proof.
  intros Hp Hg He Hd.
  assert (Hpc : profile_checkers context args = Ret [] []).
  { unfold profile_checkers. now rewrite Hp. }
  rewrite listing_rows_run, Hpc. eexists. split.
  - destruct working; reflexivity.
  - rewrite !map_app.
    rewrite (proj2 (checker_rows_listed context args _ working)),
            (proj2 (warning_rows_listed context args)).
    assert (Hc : listed_checkers context args (profile_directives args) working
                 = flat_map
                     (fun analyzer =>
                        map fst (checks context analyzer
                                   (get_analyzer_checkers context analyzer) []))
                     working).
    { unfold listed_checkers, profile_directives. rewrite Hp.
      apply flat_map_ext. intros analyzer. f_equal. apply filter_all.
      intros [checker [state description]].
      unfold listed, profile_filter, state_filter, guideline_filter. simpl.
      rewrite Hp, Hg, He, Hd, !andb_false_r. reflexivity. }
    assert (Hl : listed_warnings context args
                 = if show_warnings args
                   then map (fun W => ("clang-diagnostic-" ++ W)%string)
                            (get_warnings context)
                   else []).
    { unfold listed_warnings. destruct (show_warnings args); [| reflexivity].
      apply filter_all. intros name. unfold guideline_filter. now rewrite Hg. }
    now rewrite Hc, Hl.
Qed.

Lemma unfiltered_listing_is_complete_witness :
  exists rows,
    listing_rows Example.context Example.args ["clangsa"; "clang-tidy"]
    = Ret [] rows
    /\ map (row_name Example.args) rows
       = map (fun name => Some (Str name)) (["A"; "B"; "C"; "D"] ++ []).
Proof.
  exact (unfiltered_listing_is_complete Example.context Example.args
           ["clangsa"; "clang-tidy"] eq_refl eq_refl eq_refl eq_refl).
Defined.

Lemma collect_ext {A : Type} (f g : A -> option Row) (l : list A) :
  (forall x, f x = g x) -> collect f l = collect g l.
Proof.
  intros H. induction l as [| x l IH]; simpl; [reflexivity |].
  now rewrite H, IH.
Qed.

(** X9: under [--profile] only checkers whose resolved state is enabled
    are listed; so [--only-enabled] adds nothing to a profile query, and
    a profile query with [--only-disabled] lists no checker at all. *)
Theorem profile_lists_enabled_only
  (context : Context) (args : Args) (name : string)
  (directives : list (string * bool)) (working : list string) :
  profile args = Some name ->
  (forall analyzer checker state description,
      checker_row context args analyzer (checker, (state, description)) <> None ->
      state = CheckerState.enabled)
  /\ (only_disabled args = true ->
      checker_rows context args directives working = [])
  /\ (only_disabled args = false ->
      checker_rows context (with_only_enabled args) directives working
      = checker_rows context args directives working).
Proof.
  intros Hp.
  assert (Hpf : forall state, profile_filter args state = is_enabled state).
  { intros state. unfold profile_filter. rewrite Hp.
    now destruct (is_enabled state). }
  split; [| split].
  - intros analyzer checker state description H. apply is_enabled_true.
    unfold checker_row in H. rewrite Hpf in H.
    destruct (is_enabled state); [reflexivity | now contradiction H].
  - intros Hd. unfold checker_rows. apply flat_map_nil. intros analyzer _.
    apply collect_none. intros [checker [state description]] _.
    unfold checker_row, state_filter. rewrite Hpf, Hd.
    destruct (is_enabled state); reflexivity.
  - intros Hd. unfold checker_rows. apply flat_map_ext. intros analyzer.
    apply collect_ext. intros [checker [state description]].
    unfold checker_row, profile_filter, state_filter, guideline_filter,
      guideline_cell. simpl. rewrite Hp, Hd.
    destruct (is_enabled state); reflexivity.
Qed.

Lemma profile_lists_enabled_only_witness :
  checker_rows Example.context Example.args_profile_strict_only_disabled
    [("profile:strict", true)] ["clangsa"] = []
  /\ checker_rows Example.context
       (with_only_enabled Example.args_profile_strict)
       [("profile:strict", true)] ["clangsa"]
     = checker_rows Example.context Example.args_profile_strict
         [("profile:strict", true)] ["clangsa"].
Proof.
  split.
  - exact (proj1 (proj2 (profile_lists_enabled_only Example.context
                           Example.args_profile_strict_only_disabled "strict"
                           [("profile:strict", true)] ["clangsa"] eq_refl))
                 eq_refl).
  - exact (proj2 (proj2 (profile_lists_enabled_only Example.context
                           Example.args_profile_strict "strict"
                           [("profile:strict", true)] ["clangsa"] eq_refl))
                 eq_refl).
Defined.

(** ** The modes of [main] *)

Lemma for_each_two_prints {A : Type} (first second : A -> string) (l : list A) :
  for_each l (fun x => bind (print (first x)) (fun _ => print (second x)))
  = Ret (flat_map (fun x => [Print (first x); Print (second x)]) l) tt.
Proof.
  induction l as [| x l IH]; [reflexivity |].
  cbn [for_each]. rewrite IH. reflexivity.
Qed.

Lemma list_guidelines_run (context : Context) (args : Args) :
  list_guidelines context args
  = Ret (if String.eqb (output_format args) "rows"
         then flat_map
                (fun gr => [Print ("Guideline: " ++ fst gr)%string;
                            Print ("Rules: " ++ Py.join ", " (snd gr))%string])
                (guidelines_and_rules context)
         else [Print
                 (to_str context (output_format args)
                    (format_header args ["Guideline"; "Rules"])
                    (if String.eqb (output_format args) "json"
                     then map (fun gr => [Str (fst gr); Strs (snd gr)])
                              (guidelines_and_rules context)
                     else map (fun gr => [Str (fst gr);
                                          Str (Py.join ", " (snd gr))])
                              (guidelines_and_rules context)))])
        tt.
Proof.
  unfold list_guidelines. fold (guidelines_and_rules context).
  destruct (String.eqb (output_format args) "rows"); [| reflexivity].
  apply (for_each_two_prints
           (fun gr => ("Guideline: " ++ fst gr)%string)
           (fun gr => ("Rules: " ++ Py.join ", " (snd gr))%string)).
Qed.

Lemma list_checker_config_run
  (context : Context) (args : Args) (working : list string) :
  let rows :=
    flat_map (fun analyzer =>
                map (config_row args analyzer)
                    (get_checker_config context analyzer))
             working in
  let header :=
    format_header args
      (if details args then ["Option"; "Description"] else ["Option"]) in
  list_checker_config context args working
  = match filter (no_options context) working with
    | [] => Ret (output (print_rows context args header rows)) tt
    | failures =>
        Exit (output (print_rows context args header rows)
              ++ [LogError
                    ("Failed to get checker configuration options for '"
                     ++ Py.join ", " failures
                     ++ "' analyzer(s)! Please try to upgrade your analyzer "
                     ++ "version to use this feature.")%string])
             1%Z
    end.
Proof.
  intros rows header. unfold list_checker_config.
  pose proof (checker_config_loop_rows context args working) as Hrows.
  pose proof (checker_config_loop_failures context args working) as Hfail.
  destruct (checker_config_loop context args working) as [rows' failures'].
  simpl in Hrows, Hfail. subst rows' failures'. fold rows header.
  destruct rows; destruct (filter (no_options context) working); reflexivity.
Qed.

Lemma list_profiles_run (context : Context) (args : Args) :
  list_profiles context args
  = Ret [LogWarning ("--profile flag is deprecated and will be removed in the "
                     ++ "next release.")%string;
         Print (to_str context (output_format args)
                  (format_header args
                     (if details args then ["Profile name"; "Description"]
                      else ["Profile name"]))
                  (if details args
                   then map (fun kv => [Str (fst kv); Str (snd kv)])
                            (get_description (checker_labels context) "profile")
                   else map (fun kv => [Str (fst kv)])
                            (get_description (checker_labels context) "profile")))]
        tt.
Proof. reflexivity. Qed.

Lemma list_checkers_run
  (context : Context) (args : Args)
  (working : list string) (errored : list (string * string)) :
  list_checkers context args working errored
  = match listing_rows context args working with
    | Exit out code => Exit out code
    | Ret _ rows =>
        Ret (output (print_rows context args (listing_header args) rows)
             ++ [PrintUnsupportedAnalyzers errored]) tt
    end.
Proof.
  unfold list_checkers.
  destruct (listing_rows context args working) as [out code | out rows] eqn:H;
    [reflexivity |].
  apply listing_rows_silent in H. subst out.
  destruct rows; reflexivity.
Qed.

Lemma print_rows_output
  (context : Context) (args : Args) (header : list string) (rows : list Row) :
  output (print_rows context args header rows)
  = match rows with
    | [] => []
    | _ :: _ => [Print (to_str context (output_format args) header rows)]
    end.
Proof. destruct rows; reflexivity. Qed.

Lemma no_report_in_prints {A : Type} (f g : A -> string) (l : list A) :
  existsb reports_unsupported
          (flat_map (fun x => [Print (f x); Print (g x)]) l) = false.
Proof. induction l; simpl; auto. Qed.

(** X10: with [--profile list] every other option but [--details] and
    the output format is ignored: the run logs the deprecation warning,
    prints exactly one document -- also when the label store describes
    no profile -- with one row per described profile, in the order of
    the descriptions, and ends with status 0. *)
Theorem profile_list_mode
  (context : Context) (args : Args)
  (working : list string) (errored : list (string * string)) :
  check_supported_analyzers context (analyzers args) = (working, errored) ->
  working <> [] ->
  profile args = Some "list" ->
  exists header rows,
    main context args
    = Ret [LogWarning ("--profile flag is deprecated and will be removed in "
                       ++ "the next release.")%string;
           Print (to_str context (output_format args) header rows)] tt
    /\ length header = (if details args then 2 else 1)
    /\ Forall (fun row => length row = length header) rows
    /\ map (fun row => nth_error row 0) rows
       = map (fun kv => Some (Str (fst kv)))
             (get_description (checker_labels context) "profile")
    /\ (details args = true ->
        map (fun row => nth_error row 1) rows
        = map (fun kv => Some (Str (snd kv)))
              (get_description (checker_labels context) "profile")).
Proof.
  intros Hs Hw Hp.
  rewrite (main_with_analyzers _ _ _ _ Hs Hw).
  unfold profile_is_list. rewrite Hp. simpl String.eqb. cbv iota.
  rewrite list_profiles_run. do 2 eexists. split; [reflexivity |].
  rewrite format_header_length.
  destruct (details args); simpl; repeat split;
    try (rewrite map_map; reflexivity); try discriminate;
    apply Forall_forall; intros row Hin; apply in_map_iff in Hin;
    destruct Hin as (kv & <- & _); reflexivity.
Qed.

Lemma profile_list_mode_witness :
  exists header rows,
    main Example.context Example.args_profile_list
    = Ret [LogWarning ("--profile flag is deprecated and will be removed in "
                       ++ "the next release.")%string;
           Print (to_str Example.context "rows" header rows)] tt
    /\ length header = 1
    /\ Forall (fun row => length row = length header) rows
    /\ map (fun row => nth_error row 0) rows
       = [Some (Str "default"); Some (Str "strict"); Some (Str "unused")]
    /\ (false = true ->
        map (fun row => nth_error row 1) rows
        = map (fun kv => Some (Str (snd kv)))
              (get_description (checker_labels Example.context) "profile")).
Proof.
  refine (profile_list_mode Example.context Example.args_profile_list
            ["clangsa"] [] eq_refl _ eq_refl). discriminate.
Defined.

Lemma existsb_app_false {A : Type} (p : A -> bool) (l1 l2 : list A) :
  existsb p l1 = false -> existsb p l2 = false -> existsb p (l1 ++ l2) = false.
Proof. intros H1 H2. now rewrite existsb_app, H1, H2. Qed.

Lemma print_rows_no_report
  (context : Context) (args : Args) (header : list string) (rows : list Row) :
  existsb reports_unsupported (output (print_rows context args header rows))
  = false.
Proof. destruct rows; reflexivity. Qed.

(** X11: with at least one working analyzer, [main] itself reports the
    analyzers that could not be resolved in the checker listing only,
    as the last thing it does; in the modes [--profile list],
    [--checker-config] and guideline listing, and in a listing aborted
    for an unknown profile, [main] ends without that report.  (What
    [check_available_analyzers] logs when no analyzer is working is not
    part of the model.) *)
Theorem unsupported_analyzers_report
  (context : Context) (args : Args)
  (working : list string) (errored : list (string * string)) :
  check_supported_analyzers context (analyzers args) = (working, errored) ->
  working <> [] ->
  if profile_is_list args || checker_config args || guideline_is_empty args
  then existsb reports_unsupported (output (main context args)) = false
  else
    (exit_code (main context args) = 1%Z
     /\ existsb reports_unsupported (output (main context args)) = false)
    \/ (exists out,
           main context args = Ret (out ++ [PrintUnsupportedAnalyzers errored]) tt
           /\ existsb reports_unsupported out = false).
Proof.
  intros Hs Hw. rewrite (main_with_analyzers _ _ _ _ Hs Hw).
  destruct (profile_is_list args); simpl; [reflexivity |].
  destruct (checker_config args); simpl.
  - pose proof (list_checker_config_run context args working) as Hrun.
    simpl in Hrun. rewrite Hrun.
    destruct (filter (no_options context) working); simpl.
    + apply print_rows_no_report.
    + apply existsb_app_false; [apply print_rows_no_report | reflexivity].
  - destruct (guideline_is_empty args).
    + rewrite list_guidelines_run. simpl.
      destruct (String.eqb (output_format args) "rows"); [| reflexivity].
      apply no_report_in_prints.
    + rewrite list_checkers_run, listing_rows_run.
      pose proof (profile_checkers_cases context args) as Hc.
      destruct working as [| analyzer rest]; [contradiction |].
      destruct (profile args) as [name |];
        [destruct (Py.has_key name _) |]; rewrite Hc.
      * right. eexists. split; [reflexivity | apply print_rows_no_report].
      * left. split; reflexivity.
      * right. eexists. split; [reflexivity | apply print_rows_no_report].
Qed.

Lemma unsupported_analyzers_report_witness :
  (exit_code (main Example.context Example.args_with_cppcheck) = 1%Z
   /\ existsb reports_unsupported
              (output (main Example.context Example.args_with_cppcheck)) = false)
  \/ (exists out,
         main Example.context Example.args_with_cppcheck
         = Ret (out ++ [PrintUnsupportedAnalyzers [("cppcheck", "not found")]]) tt
         /\ existsb reports_unsupported out = false).
Proof.
  refine (unsupported_analyzers_report Example.context
            Example.args_with_cppcheck ["clangsa"] [("cppcheck", "not found")]
            eq_refl _). discriminate.
Defined.

Lemma filter_nil_iff {A : Type} (p : A -> bool) (l : list A) :
  filter p l = [] <-> forall x, In x l -> p x = false.
Proof.
  induction l as [| x l IH]; simpl.
  - split; [intros _ y [] | reflexivity].
  - destruct (p x) eqn:Hx.
    + split; [discriminate |]. intros H.
      specialize (H x (or_introl eq_refl)). congruence.
    + rewrite IH. split.
      * intros H y [<- | Hy]; auto.
      * intros H y Hy. apply H. now right.
Qed.

(** X12: with at least one working analyzer, [main] ends with status 0
    or 1, and with 1 in two cases only: in [--checker-config] mode when
    some working analyzer reports no option, and in the checker listing
    when the requested profile is not described in the label store.
    [--profile list] and the guideline listing always end with 0. *)
Theorem main_exit_code
  (context : Context) (args : Args)
  (working : list string) (errored : list (string * string)) :
  check_supported_analyzers context (analyzers args) = (working, errored) ->
  working <> [] ->
  (exit_code (main context args) = 0%Z \/ exit_code (main context args) = 1%Z)
  /\ (exit_code (main context args) = 1%Z <->
      profile_is_list args = false
      /\ ((checker_config args = true
           /\ exists analyzer,
               In analyzer working
               /\ get_checker_config context analyzer = [])
          \/ (checker_config args = false
              /\ guideline_is_empty args = false
              /\ exists name,
                  profile args = Some name
                  /\ Py.has_key name
                       (get_description (checker_labels context) "profile")
                     = false))).
Proof.
  intros Hs Hw. rewrite (main_with_analyzers _ _ _ _ Hs Hw).
  destruct (profile_is_list args).
  { rewrite list_profiles_run. simpl. split; [now left |].
    split; [discriminate | intros [H _]; discriminate]. }
  destruct (checker_config args).
  { pose proof (list_checker_config_run context args working) as Hrun.
    simpl in Hrun. rewrite Hrun.
    destruct (filter (no_options context) working) as [| a l] eqn:Hf; simpl.
    - split; [now left |]. split; [discriminate |].
      intros [_ [[_ (analyzer & Hin & Hno)] | [H _]]]; [| discriminate].
      exfalso. rewrite filter_nil_iff in Hf. specialize (Hf _ Hin).
      unfold no_options in Hf. rewrite Hno in Hf. discriminate.
    - split; [now right |]. split; [intros _ | reflexivity].
      split; [reflexivity |]. left. split; [reflexivity |].
      assert (Ha : In a (filter (no_options context) working))
        by (rewrite Hf; now left).
      apply filter_In in Ha. destruct Ha as [Ha Hno]. exists a. split; [exact Ha |].
      unfold no_options in Hno.
      destruct (get_checker_config context a); [reflexivity | discriminate]. }
  destruct (guideline_is_empty args).
  { rewrite list_guidelines_run. simpl. split; [now left |].
    split; [discriminate |].
    intros [_ [[H _] | [_ [H _]]]]; discriminate. }
  rewrite list_checkers_run, listing_rows_run.
  pose proof (profile_checkers_cases context args) as Hc.
  destruct working as [| analyzer rest]; [contradiction |].
  destruct (profile args) as [name |];
    [destruct (Py.has_key name _) eqn:Hk |]; rewrite Hc; simpl.
  - split; [now left |]. split; [discriminate |].
    intros [_ [[H _] | (_ & _ & n & Hn & Hkn)]]; [discriminate |].
    injection Hn as <-. congruence.
  - split; [now right |]. split; [intros _ | reflexivity].
    split; [reflexivity |]. right. repeat split. now exists name.
  - split; [now left |]. split; [discriminate |].
    intros [_ [[H _] | (_ & _ & n & Hn & _)]]; discriminate.
Qed.

Lemma main_exit_code_witness :
  exit_code (main Example.context Example.args_unknown_profile) = 1%Z <->
  profile_is_list Example.args_unknown_profile = false
  /\ ((checker_config Example.args_unknown_profile = true
       /\ exists analyzer,
           In analyzer ["clangsa"]
           /\ get_checker_config Example.context analyzer = [])
      \/ (checker_config Example.args_unknown_profile = false
          /\ guideline_is_empty Example.args_unknown_profile = false
          /\ exists name,
              profile Example.args_unknown_profile = Some name
              /\ Py.has_key name
                   (get_description (checker_labels Example.context) "profile")
                 = false)).
Proof.
  refine (proj2 (main_exit_code Example.context Example.args_unknown_profile
                   ["clangsa"] [] eq_refl _)). discriminate.
Defined.

(** ** The rows of [--checker-config] *)

Lemma flat_map_Forall {A B : Type} (P : B -> Prop) (f : A -> list B) (l : list A) :
  (forall x, Forall P (f x)) -> Forall P (flat_map f l).
Proof.
  intros H. induction l as [| x l IH]; simpl; [constructor |].
  apply Forall_app. split; [apply H | exact IH].
Qed.

Lemma map_flat_map {A B C : Type} (g : B -> C) (f : A -> list B) (l : list A) :
  map g (flat_map f l) = flat_map (fun x => map g (f x)) l.
Proof.
  induction l as [| x l IH]; simpl; [reflexivity |].
  now rewrite map_app, IH.
Qed.

(** X13: in [--checker-config] mode every working analyzer either is
    recorded as failed (it reports no option) or contributes one row per
    option, in the order reported, never both; a row is
    [analyzer:option], followed by the description with [--details];
    all rows have the width of the header. *)
Theorem checker_config_rows
  (context : Context) (args : Args) (working : list string) :
  let rows := fst (checker_config_loop context args working) in
  let failures := snd (checker_config_loop context args working) in
  Forall (fun row => length row = if details args then 2 else 1) rows
  /\ map (fun row => nth_error row 0) rows
     = flat_map
         (fun analyzer =>
            map (fun c => Some (Str (analyzer ++ ":" ++ fst c)%string))
                (get_checker_config context analyzer))
         working
  /\ (if details args
      then map (fun row => nth_error row 1) rows
           = flat_map
               (fun analyzer =>
                  map (fun c => Some (Str (snd c)))
                      (get_checker_config context analyzer))
               working
      else True)
  /\ failures
     = filter (fun analyzer =>
                 (length (get_checker_config context analyzer) =? 0)%nat)
              working.
Proof.
  intros rows failures. subst rows failures.
  rewrite checker_config_loop_rows, checker_config_loop_failures.
  split; [| split; [| split]].
  - apply flat_map_Forall. intros analyzer. apply Forall_forall.
    intros row Hin. apply in_map_iff in Hin. destruct Hin as (c & <- & _).
    unfold config_row. destruct (details args); reflexivity.
  - rewrite map_flat_map. apply flat_map_ext. intros analyzer.
    rewrite map_map. apply map_ext. intros c.
    unfold config_row. destruct (details args); reflexivity.
  - destruct (details args) eqn:Hd; [| exact I].
    rewrite map_flat_map. apply flat_map_ext. intros analyzer.
    rewrite map_map. apply map_ext. intros c.
    unfold config_row. rewrite Hd. reflexivity.
  - apply filter_ext. intros analyzer. unfold no_options.
    destruct (get_checker_config context analyzer); reflexivity.
Qed.

(** ** [get_diagtool_bin] and [get_warnings] *)

Lemma path_join_diagtool_suffix (d : string) :
  exists prefix, Py.path_join d "diagtool" = (prefix ++ "diagtool")%string.
Proof.
  unfold Py.path_join. simpl Py.startswith.
  destruct (String.eqb d ""); [now exists "" |].
  destruct (String.eqb _ "/").
  - now exists d.
  - exists (d ++ "/")%string. now rewrite append_assoc.
Qed.

(** X14: [get_diagtool_bin] returns a path only when a clang binary is
    configured; the path it returns exists, is named [diagtool], and
    lies in the directory of the resolved clang binary.  Without a
    configured clang binary, or without such a file, it returns
    nothing. *)
Theorem get_diagtool_bin_spec (context : Context) :
  match get_diagtool_bin context with
  | Some bin =>
      path_exists context bin = true
      /\ (exists prefix, bin = (prefix ++ "diagtool")%string)
      /\ exists clang,
          clang_bin context = Some clang
          /\ clang <> ""
          /\ bin = Py.path_join (dirname context (realpath context clang))
                                "diagtool"
  | None =>
      clang_bin context = None
      \/ clang_bin context = Some ""
      \/ exists clang,
          clang_bin context = Some clang
          /\ path_exists context
               (Py.path_join (dirname context (realpath context clang))
                             "diagtool") = false
  end.
Proof.
  unfold get_diagtool_bin.
  destruct (clang_bin context) as [clang |]; [| now left].
  destruct (String.eqb clang "") eqn:E.
  - apply String.eqb_eq in E. subst. right. now left.
  - apply String.eqb_neq in E.
    destruct (path_exists context _) eqn:Hex.
    + split; [exact Hex |]. split; [apply path_join_diagtool_suffix |].
      now exists clang.
    + right. right. now exists clang.
Qed.

Lemma slice_from_Forall (P : ascii -> Prop) (n : nat) (s : string) :
  Forall P (list_ascii_of_string s) ->
  Forall P (list_ascii_of_string (Py.slice_from n s)).
Proof.
  revert s. induction n as [| n IH]; intros s H; [exact H |].
  destruct s as [| c s]; [exact H |]. simpl. apply IH.
  now inversion H.
Qed.

Lemma isspace_clang_diagnostic :
  Forall (fun c => Py.isspace c = false)
         (list_ascii_of_string "clang-diagnostic-").
Proof. repeat constructor. Qed.

(** X15: whatever diagtool prints, no name returned by [get_warnings]
    holds a whitespace character, nor does the checker name
    ['clang-diagnostic-' + name] made from it; and there are at most as
    many names as diagtool printed tokens. *)
Theorem get_warnings_names (context : Context) :
  Forall no_whitespace (get_warnings context)
  /\ Forall (fun W => no_whitespace ("clang-diagnostic-" ++ W))
            (get_warnings context)
  /\ forall bin stdout,
      get_diagtool_bin context = Some bin ->
      check_output context [bin; "tree"] = Completed stdout ->
      length (get_warnings context) <= length (Py.split stdout).
Proof.
  assert (H : Forall no_whitespace (get_warnings context)).
  { unfold get_warnings.
    destruct (get_diagtool_bin context) as [bin |]; [| constructor].
    destruct (String.eqb bin ""); [constructor |].
    destruct (check_output context [bin; "tree"]) as [stdout | rc |];
      try constructor.
    apply Forall_forall. intros W HW. apply in_map_iff in HW.
    destruct HW as (token & <- & Htoken). apply filter_In in Htoken.
    destruct Htoken as [Htoken _].
    pose proof (split_tokens stdout) as Hs. rewrite Forall_forall in Hs.
    apply slice_from_Forall. exact (proj2 (Hs _ Htoken)). }
  split; [exact H |]. split.
  - apply Forall_forall. intros W HW. rewrite Forall_forall in H.
    unfold no_whitespace. rewrite list_ascii_app. apply Forall_app.
    split; [apply isspace_clang_diagnostic | exact (H _ HW)].
  - intros bin stdout Hbin Hout. unfold get_warnings.
    rewrite Hbin, (get_diagtool_bin_nonempty _ _ Hbin), Hout, length_map.
    apply filter_length_le.
Qed.

Lemma get_warnings_names_witness :
  length (get_warnings Example.context)
  <= length (Py.split ("GREEN -Weverything
  -Wall
    -Wunused  YELLOW = off")).
Proof.
  exact (proj2 (proj2 (get_warnings_names Example.context))
           "/usr/bin/diagtool" _ eq_refl eq_refl).
Defined.

(** ** The guideline listing *)

Lemma string_lt_trans (a b c : string) :
  string_lt a b -> string_lt b c -> string_lt a c.
Proof.
  unfold string_lt. intros Hab Hbc.
  apply OrderedTypeEx.String_as_OT.cmp_lt.
  apply OrderedTypeEx.String_as_OT.cmp_lt in Hab, Hbc.
  exact (OrderedTypeEx.String_as_OT.lt_trans _ _ _ Hab Hbc).
Qed.

Lemma string_lt_irrefl (a : string) : ~ string_lt a a.
Proof.
  unfold string_lt. intros H.
  apply OrderedTypeEx.String_as_OT.cmp_lt in H.
  exact (OrderedTypeEx.String_as_OT.lt_not_eq _ _ H eq_refl).
Qed.

Lemma insert_sorted_In (x y : string) (l : list string) :
  In y (Py.insert_sorted x l) <-> y = x \/ In y l.
Proof.
  induction l as [| z l IH]; simpl.
  - split; [intros [H | []]; auto | intros [H | []]; auto].
  - destruct (String.compare x z) eqn:Hc; simpl.
    + apply String.compare_eq_iff in Hc. subst z. split; [auto |].
      intros [-> | H]; auto.
    + split; [intros [H | H]; auto | intros [H | H]; auto].
    + rewrite IH. split.
      * intros [H | [H | H]]; auto.
      * intros [H | [H | H]]; auto.
Qed.

Lemma insert_sorted_sorted (x : string) (l : list string) :
  StronglySorted string_lt l -> StronglySorted string_lt (Py.insert_sorted x l).
Proof.
  induction l as [| z l IH]; simpl; intros Hs.
  - constructor; constructor.
  - inversion Hs as [| z' l' Hl Hz]; subst.
    destruct (String.compare x z) eqn:Hc.
    + exact Hs.
    + constructor; [exact Hs |]. constructor; [exact Hc |].
      rewrite Forall_forall in *. intros y Hy.
      apply (string_lt_trans _ z); [exact Hc | now apply Hz].
    + constructor; [now apply IH |].
      rewrite Forall_forall in *. intros y Hy.
      apply insert_sorted_In in Hy. destruct Hy as [-> | Hy]; [| now apply Hz].
      unfold string_lt. rewrite String.compare_antisym, Hc. reflexivity.
Qed.

Lemma sorted_set_spec (l : list string) :
  StronglySorted string_lt (Py.sorted_set l)
  /\ forall x, In x (Py.sorted_set l) <-> In x l.
Proof.
  unfold Py.sorted_set. induction l as [| y l [IHs IHi]]; simpl.
  - split; [constructor | reflexivity].
  - split; [now apply insert_sorted_sorted |].
    intros x. rewrite insert_sorted_In, IHi. split; intros [H | H]; auto.
Qed.

(** The loop of the guideline listing, from any dict. *)
Lemma guidelines_fold
  (rules_of : string -> list string) (keys : list (string * string))
  (acc : list (string * list string)) :
  let result :=
    fold_left (fun result g => Py.dict_set (fst g) (rules_of (fst g)) result)
              keys acc in
  (NoDup (map fst acc) -> NoDup (map fst result))
  /\ (forall g, In g (map fst result) <->
                In g (map fst acc) \/ In g (map fst keys))
  /\ (forall g, dict_get g result
                = if Py.has_key g keys then Some (rules_of g)
                  else dict_get g acc).
Proof.
  revert acc. induction keys as [| [k d] keys IH]; intros acc; simpl.
  - repeat split; auto. intros [H | []]. exact H.
  - destruct (IH (Py.dict_set k (rules_of k) acc)) as (IHnd & IHin & IHget).
    split; [| split].
    + intros Hnd. apply IHnd. now apply dict_set_NoDup.
    + intros g. rewrite IHin, dict_set_keys.
      destruct (Py.has_key k acc) eqn:Hk.
      * apply has_key_In in Hk. split; [intros [H | H]; auto |].
        intros [H | [<- | H]]; auto.
      * rewrite in_app_iff. simpl. split.
        -- intros [[H | [H | []]] | H]; auto.
        -- intros [H | [H | H]]; auto.
    + intros g. rewrite IHget, dict_get_dict_set.
      destruct (String.eqb g k) eqn:E; simpl.
      * apply String.eqb_eq in E. subst k.
        destruct (Py.has_key g keys); reflexivity.
      * reflexivity.
Qed.

(** X16: the guideline listing has exactly one entry per guideline name
    described in the label store -- also for a guideline without any
    occurring rule -- and the rules of an entry are the values occurring
    for that guideline, each once, in increasing order. *)
Theorem guidelines_and_rules_spec (context : Context) (g : string) :
  NoDup (map fst (guidelines_and_rules context))
  /\ (In g (map fst (guidelines_and_rules context)) <->
      In g (map fst (get_description (checker_labels context) "guideline")))
  /\ forall rules,
      In (g, rules) (guidelines_and_rules context) ->
      StronglySorted string_lt rules
      /\ forall rule,
          In rule rules <->
          In rule (occurring_values (checker_labels context) g).
Proof.
  unfold guidelines_and_rules.
  destruct (guidelines_fold
              (fun g => Py.sorted_set (occurring_values (checker_labels context) g))
              (get_description (checker_labels context) "guideline") [])
    as (Hnd & Hin & Hget).
  simpl in Hnd, Hin, Hget. specialize (Hnd (NoDup_nil _)).
  split; [exact Hnd |]. split.
  - rewrite Hin. simpl. split; [intros [[] | H]; exact H | auto].
  - intros rules Hr. apply (dict_get_In _ _ _ Hnd) in Hr.
    rewrite Hget in Hr. destruct (Py.has_key g _); [| discriminate].
    injection Hr as <-. apply sorted_set_spec.
Qed.

Lemma guidelines_and_rules_spec_witness :
  StronglySorted string_lt ["arr30-c"]
  /\ forall rule,
      In rule ["arr30-c"] <->
      In rule (occurring_values (checker_labels Example.context) "sei-cert").
Proof.
  refine (proj2 (proj2 (guidelines_and_rules_spec Example.context "sei-cert"))
            ["arr30-c"] _).
  simpl. auto.
Defined.

(** X17: with at least one working analyzer, a query with
    [--guideline] and no name (outside [--profile list] and
    [--checker-config]) ends with status 0 and logs nothing; in the
    [rows] format it prints exactly two lines per guideline, the name
    and the comma-separated rules; in every other format it prints one
    document with one row per guideline, the rules as a list for json
    and as comma-separated text otherwise. *)
Theorem guideline_listing_mode
  (context : Context) (args : Args)
  (working : list string) (errored : list (string * string)) :
  check_supported_analyzers context (analyzers args) = (working, errored) ->
  working <> [] ->
  profile args <> Some "list" ->
  checker_config args = false ->
  guideline args = Some [] ->
  exit_code (main context args) = 0%Z
  /\ output (main context args)
     = map Print (printed (output (main context args)))
  /\ printed (output (main context args))
     = if String.eqb (output_format args) "rows"
       then flat_map
              (fun gr => [("Guideline: " ++ fst gr)%string;
                          ("Rules: " ++ Py.join ", " (snd gr))%string])
              (guidelines_and_rules context)
       else [to_str context (output_format args)
               (format_header args ["Guideline"; "Rules"])
               (map (fun gr =>
                       [Str (fst gr);
                        if String.eqb (output_format args) "json"
                        then Strs (snd gr)
                        else Str (Py.join ", " (snd gr))])
                    (guidelines_and_rules context))].
Proof.
  intros Hs Hw Hl Hc Hg. apply profile_is_list_false in Hl.
  rewrite (main_with_analyzers _ _ _ _ Hs Hw), Hl, Hc.
  unfold guideline_is_empty. rewrite Hg. simpl Nat.eqb. cbv iota.
  rewrite list_guidelines_run. cbn [exit_code output].
  split; [reflexivity |].
  destruct (String.eqb (output_format args) "rows").
  - split.
    + induction (guidelines_and_rules context) as [| gr l IH];
        [reflexivity |]. cbn [flat_map app printed map]. do 2 f_equal. exact IH.
    + induction (guidelines_and_rules context) as [| gr l IH];
        [reflexivity |]. cbn [flat_map app printed]. do 2 f_equal. exact IH.
  - split; [reflexivity |]. simpl. do 2 f_equal.
    destruct (String.eqb (output_format args) "json"); reflexivity.
Qed.

Lemma guideline_listing_mode_witness :
  printed (output (main Example.context Example.args_guideline_empty))
  = ["Guideline: sei-cert"; "Rules: arr30-c"].
Proof.
  refine (proj2 (proj2 (guideline_listing_mode Example.context
                          Example.args_guideline_empty ["clangsa"] []
                          eq_refl _ _ eq_refl eq_refl))); discriminate.
Defined.

(** ** The Guideline column *)

Lemma join_space_empty (l : list string) :
  Forall (fun s => s <> "") l -> (Py.join " " l = "" <-> l = []).
Proof.
  intros H. destruct l as [| s l]; [split; reflexivity |].
  split; [| discriminate]. inversion H as [| s' l' Hs Hl]; subst.
  unfold Py.join. simpl. destruct l as [| t l].
  - intros E. contradiction.
  - intros E. apply append_eq_empty in E. destruct E as [E _]. contradiction.
Qed.

Lemma format_guideline_empty (d : list (string * list string)) :
  format_guideline d = "" <-> d = [].
Proof.
  unfold format_guideline. rewrite join_space_empty.
  - destruct d; simpl; split; congruence.
  - apply Forall_forall. intros s Hs. apply in_map_iff in Hs.
    destruct Hs as (gr & <- & _). discriminate.
Qed.

Lemma guideline_rules_empty (context : Context) (checker : string) :
  guideline_rules_for_checker context checker = [] <->
  forall label value,
    In (label, value) (labels_of_checker (checker_labels context) checker) ->
    ~ In label (map fst (get_description (checker_labels context) "guideline")).
Proof.
  split.
  - intros Hnil label value Hin Hk.
    destruct (guideline_rules_lookup context checker label) as [_ Hget].
    rewrite Hnil in Hget. apply has_key_In in Hk. rewrite Hk in Hget.
    assert (Hv : In value (label_values context checker label)).
    { unfold label_values. apply in_map_iff. exists (label, value).
      split; [reflexivity |]. apply filter_In.
      split; [exact Hin | apply String.eqb_refl]. }
    destruct (label_values context checker label); [destruct Hv | discriminate].
  - intros Hnone.
    destruct (guideline_rules_for_checker context checker) as [| [g rules] d] eqn:E;
      [reflexivity |]. exfalso.
    destruct (guideline_rules_lookup context checker g) as [_ Hget].
    rewrite E in Hget. simpl in Hget. rewrite String.eqb_refl in Hget.
    destruct (Py.has_key g _) eqn:Hk; [| discriminate].
    destruct (label_values context checker g) as [| r rs] eqn:Hl; [discriminate |].
    assert (Hr : In r (label_values context checker g)) by (rewrite Hl; now left).
    unfold label_values in Hr. apply in_map_iff in Hr.
    destruct Hr as ([k v] & _ & Hf). apply filter_In in Hf.
    destruct Hf as [Hf Hkey]. simpl in Hkey. apply String.eqb_eq in Hkey. subst k.
    apply (Hnone g v Hf). now apply has_key_In.
Qed.

Lemma guideline_cell_empty
  (context : Context) (args : Args) (name : string) :
  output_format args <> "json" ->
  (guideline_cell context args name = Str "" <->
   forall label value,
     In (label, value) (labels_of_checker (checker_labels context) name) ->
     ~ In label (map fst (get_description (checker_labels context) "guideline"))).
Proof.
  intros Hf. apply String.eqb_neq in Hf.
  unfold guideline_cell. rewrite Hf. simpl.
  rewrite <- guideline_rules_empty, <- format_guideline_empty.
  split; [intros H; now injection H | intros ->; reflexivity].
Qed.

(** X18: with [--details], outside the json format, the Guideline
    column (the fifth cell) of the row of a checker, and likewise of the
    row of a warning, is the empty text exactly when no label key of
    that checker or warning name is a guideline name described in the
    label store; a ['guideline'] label alone, which is enough for
    [--guideline] to select the checker, leaves the column empty unless
    ['guideline'] is itself described as a guideline. *)
Theorem guideline_column_empty (context : Context) (args : Args) :
  output_format args <> "json" ->
  details args = true ->
  (forall analyzer checker state description row,
      checker_row context args analyzer (checker, (state, description))
      = Some row ->
      (nth_error row 4 = Some (Str "") <->
       forall label value,
         In (label, value)
            (labels_of_checker (checker_labels context) checker) ->
         ~ In label
              (map fst (get_description (checker_labels context) "guideline"))))
  /\ (forall W row,
         warning_row context args W = Some row ->
         (nth_error row 4 = Some (Str "") <->
          forall label value,
            In (label, value)
               (labels_of_checker (checker_labels context)
                                  ("clang-diagnostic-" ++ W)) ->
            ~ In label
                 (map fst
                      (get_description (checker_labels context) "guideline")))).
Proof.
  intros Hf Hd. split.
  - intros analyzer checker state description row. unfold checker_row.
    rewrite Hd.
    destruct (negb (profile_filter args state)); [discriminate |].
    destruct (negb (state_filter args state)); [discriminate |].
    destruct (negb (guideline_filter context args checker)); [discriminate |].
    intros H. injection H as <-. simpl.
    rewrite <- (guideline_cell_empty context args checker Hf).
    split; congruence.
  - intros W row. unfold warning_row. rewrite Hd.
    destruct (negb (guideline_filter context args _)); [discriminate |].
    intros H. injection H as <-. simpl.
    rewrite <- (guideline_cell_empty context args _ Hf).
    split; congruence.
Qed.

Lemma guideline_column_empty_witness :
  nth_error [Str "+"; Str "A"; Str "clangsa"; Str "HIGH"; Str "";
             Str "checker A"] 4 = Some (Str "")
  <-> forall label value,
      In (label, value)
         (labels_of_checker (checker_labels Example.context) "A") ->
      ~ In label
           (map fst (get_description (checker_labels Example.context)
                                     "guideline")).
Proof.
  refine (proj1 (guideline_column_empty Example.context
                   Example.args_warnings_details _ eq_refl)
            "clangsa" "A" CheckerState.enabled "checker A" _ eq_refl).
  discriminate.
Defined.

(** ** Documents *)

(** X19: a run of [main] writes at most one document to standard
    output, except the guideline listing in the [rows] format, which
    writes two lines per guideline. *)
Theorem main_prints_one_document
  (context : Context) (args : Args)
  (working : list string) (errored : list (string * string)) :
  check_supported_analyzers context (analyzers args) = (working, errored) ->
  working <> [] ->
  (profile_is_list args = true
   \/ checker_config args = true
   \/ guideline_is_empty args = false
   \/ output_format args <> "rows") ->
  length (printed (output (main context args))) <= 1.
Proof.
  intros Hs Hw Hmode. rewrite (main_with_analyzers _ _ _ _ Hs Hw).
  destruct (profile_is_list args); [rewrite list_profiles_run; simpl; lia |].
  destruct (checker_config args).
  { pose proof (list_checker_config_run context args working) as Hrun.
    simpl in Hrun. rewrite Hrun.
    destruct (filter (no_options context) working); cbn [output];
      rewrite print_rows_output; destruct (flat_map _ working); simpl; lia. }
  destruct (guideline_is_empty args).
  { rewrite list_guidelines_run. cbn [output].
    destruct (String.eqb (output_format args) "rows") eqn:E; [| simpl; lia].
    apply String.eqb_eq in E.
    destruct Hmode as [H | [H | [H | H]]]; try discriminate. contradiction. }
  rewrite list_checkers_run.
  destruct (listing_rows context args working) as [out code | out rows] eqn:Hl.
  - rewrite listing_rows_run in Hl.
    pose proof (profile_checkers_cases context args) as Hc.
    destruct working as [| analyzer rest]; [discriminate |].
    destruct (profile args) as [name |];
      [destruct (Py.has_key name _) |]; rewrite Hc in Hl; try discriminate.
    injection Hl as <- _. simpl. lia.
  - cbn [output]. rewrite print_rows_output. destruct rows; simpl; lia.
Qed.

Lemma main_prints_one_document_witness :
  length (printed (output (main Example.context Example.args_warnings_json)))
  <= 1.
Proof.
  refine (main_prints_one_document Example.context Example.args_warnings_json
            ["clangsa"] [] eq_refl _ _); [discriminate |].
  right. right. left. reflexivity.
Defined.

(** ** The guideline selector in the listing *)





(** ** Warning rows in the listing *)

(** C7: for every warning flag [W] listed by the helper, when warnings
    are shown, the listing gets a row appended after the rows of the
    checkers, and that row is part of the document that [main] prints;
    the row carries the name ['clang-diagnostic-' + W];
    in details mode its analyzer column is ['-'] and its severity is
    ['MEDIUM']; and it is dropped by the guideline filter by the very
    rule that drops a real checker: a selector is given and
    [match_guideline] rejects the name. *)
Theorem warning_row_spec (context : Context) (args : Args) (W : string) :
  let name := ("clang-diagnostic-" ++ W)%string in
  (forall row,
      warning_row context args W = Some row ->
      if details args
      then nth_error row 1 = Some (Str name)
           /\ nth_error row 2 = Some (Str "-")
           /\ nth_error row 3 = Some (Str "MEDIUM")
      else row = [Str name])
  /\ (warning_row context args W = None <->
      exists selected,
        guideline args = Some selected
        /\ match_guideline context name selected = false)
  /\ (forall analyzer state description,
         profile_filter args state = true ->
         state_filter args state = true ->
         (checker_row context args analyzer (name, (state, description)) = None <->
          exists selected,
            guideline args = Some selected
            /\ match_guideline context name selected = false))
  /\ (show_warnings args = true ->
      In W (get_warnings context) ->
      forall row,
        warning_row context args W = Some row ->
        In row (warning_rows context args)
        /\ forall working out rows,
            listing_rows context args working = Ret out rows ->
            (exists before after,
                rows = checker_rows context args (profile_directives args)
                                    working
                       ++ before ++ row :: after)
            /\ forall errored,
                check_supported_analyzers context (analyzers args)
                = (working, errored) ->
                working <> [] ->
                profile args <> Some "list" ->
                checker_config args = false ->
                guideline args <> Some [] ->
                main context args
                = Ret [Print (to_str context (output_format args)
                                (listing_header args) rows);
                       PrintUnsupportedAnalyzers errored] tt).
Proof.
  intros name.
  assert (Hw : warning_row context args W = None <->
               guideline_filter context args name = false).
  { unfold warning_row. fold name.
    destruct (guideline_filter context args name); simpl.
    - destruct (details args); split; discriminate.
    - split; reflexivity. }
  split; [| split; [| split]].
  - intros row. unfold warning_row. fold name.
    destruct (guideline_filter context args name); simpl; [| discriminate].
    destruct (details args); intros H; injection H as <-; auto.
  - rewrite Hw. apply guideline_filter_false.
  - intros analyzer state description Hp Hs.
    rewrite <- guideline_filter_false.
    unfold checker_row. rewrite Hp, Hs. simpl.
    destruct (guideline_filter context args name); simpl.
    + destruct (details args); split; discriminate.
    + split; reflexivity.
  - intros Hshow Hin row Hrow.
    assert (Hr : In row (warning_rows context args)).
    { unfold warning_rows. rewrite Hshow. apply collect_In. now exists W. }
    split; [exact Hr |]. intros working out rows Hl.
    destruct (listing_rows_returned _ _ _ _ _ Hl) as [-> ->].
    destruct (in_split _ _ Hr) as (before & after & Hsplit).
    split.
    + exists before, after. now rewrite Hsplit.
    + intros errored Hs Hwork Hp Hc Hg.
      destruct (checker_rows context args (profile_directives args) working
                ++ warning_rows context args) as [| r rs] eqn:Hrows.
      * exfalso. apply app_eq_nil in Hrows. destruct Hrows as [_ Hnil].
        rewrite Hnil in Hr. destruct Hr.
      * now apply (nonempty_listing_is_printed _ _ _ _ _ _ Hs Hwork Hp Hc Hg).
Qed.

Lemma warning_row_spec_witness :
  (In [Str "clang-diagnostic-all"]
      (warning_rows Example.context Example.args_warnings)
   /\ main Example.context Example.args_warnings
      = Ret [Print (to_str Example.context "rows" ["Name"]
                      [[Str "A"]; [Str "B"]; [Str "C"];
                       [Str "clang-diagnostic-everything"];
                       [Str "clang-diagnostic-all"];
                       [Str "clang-diagnostic-unused"]]);
             PrintUnsupportedAnalyzers []] tt)
  /\ (checker_row Example.context Example.args_guideline_sei_cert "clangsa"
        ("clang-diagnostic-all", (CheckerState.enabled, "-")) = None
      <-> exists selected,
          guideline Example.args_guideline_sei_cert = Some selected
          /\ match_guideline Example.context "clang-diagnostic-all" selected
             = false).
Proof.
  split.
  - assert (Hin : In "all" (get_warnings Example.context))
      by (simpl; auto).
    pose proof (proj2 (proj2 (proj2
                  (warning_row_spec Example.context Example.args_warnings "all")))
                  eq_refl Hin _ eq_refl) as [Hrow Hlisting].
    split; [exact Hrow |].
    refine (proj2 (Hlisting ["clangsa"] [] _ eq_refl) [] eq_refl _ _ eq_refl _);
      discriminate.
  - exact (proj1 (proj2 (proj2
             (warning_row_spec Example.context Example.args_guideline_sei_cert
                "all")))
             "clangsa" CheckerState.enabled "-" eq_refl eq_refl).
Defined.

